(** * tex2png: the render server (tex2png-server.js)

    A shallow embedding of the server script: the content normalizer
    [processMathContent], the [/render] request handler and the
    single-instance check of [startServer], with the properties the
    specification states about them. *)

From Stdlib Require Import ZArith NArith Ascii String List Bool Lia.
From Stdlib Require Import Floats.SpecFloat.
From stdpp Require Import base option list gmap fin_maps pretty.

Open Scope Z_scope.

(** ** JavaScript strings

    A JavaScript string is a sequence of UTF-16 code units.  Literals of the
    source are written with [lit]; every literal of the script is ASCII. *)
Module JS.

Definition code_unit := N.
Definition jsstring := list code_unit.

Fixpoint lit (s : string) : jsstring :=
  match s with
  | EmptyString => []
  | String a s' => N_of_ascii a :: lit s'
  end.

Fixpoint eqb (s t : jsstring) : bool :=
  match s, t with
  | [], [] => true
  | c :: s', d :: t' => N.eqb c d && eqb s' t'
  | _, _ => false
  end.

(** [String.prototype.startsWith(search)] with the default position 0. *)
Fixpoint startsWith (s search : jsstring) {struct search} : bool :=
  match search with
  | [] => true
  | c :: search' =>
      match s with
      | [] => false
      | d :: s' => N.eqb d c && startsWith s' search'
      end
  end.

(** [String.prototype.endsWith(search)] with the default end position: the
    start index is [length - searchLength]; a negative start gives false. *)
Definition endsWith (s search : jsstring) : bool :=
  let start := Z.of_nat (length s) - Z.of_nat (length search) in
  if start <? 0 then false
  else eqb (skipn (Z.to_nat start) s) search.

(** [String.prototype.slice(start, end)]: negative indices count from the
    end, both are clamped to [0, length], an empty span gives the empty
    string. *)
Definition slice (s : jsstring) (start end_ : Z) : jsstring :=
  let len := Z.of_nat (length s) in
  let from := if start <? 0 then Z.max (len + start) 0 else Z.min start len in
  let to := if end_ <? 0 then Z.max (len + end_) 0 else Z.min end_ len in
  let span := Z.max (to - from) 0 in
  firstn (Z.to_nat span) (skipn (Z.to_nat from) s).

(** White space and line terminators of ECMAScript, as code units. *)
Definition isWhiteSpace (c : code_unit) : bool :=
  match c with
  | 9 | 10 | 11 | 12 | 13 | 32 | 160 | 5760
  | 8232 | 8233 | 8239 | 8287 | 12288 | 65279 => true
  | _ => N.leb 8192 c && N.leb c 8202
  end%N.

Fixpoint trimStart (s : jsstring) : jsstring :=
  match s with
  | [] => []
  | c :: s' => if isWhiteSpace c then trimStart s' else s
  end.

Definition trimEnd (s : jsstring) : jsstring := rev (trimStart (rev s)).

(** [String.prototype.trim()]. *)
Definition trim (s : jsstring) : jsstring := trimEnd (trimStart s).

End JS.

Export JS.

(** ** Numbers and JSON values

    A JavaScript number is an IEEE 754 binary64 float.  The values the
    script receives from outside (request bodies, the macros file) are the
    results of [JSON.parse]. *)

Definition number : Type := spec_float.
Definition js_add : number -> number -> number := SFadd 53 1024.
Definition num (z : Z) : number := binary_normalize 53 1024 z 0 false.
Definition NaN : number := S754_nan.

(** SameValueZero on numbers: NaN equals NaN and the two zeros are equal. *)
Definition sameValueZero (x y : number) : bool :=
  match x, y with
  | S754_nan, S754_nan => true
  | S754_zero _, S754_zero _ => true
  | S754_infinity a, S754_infinity b => Bool.eqb a b
  | S754_finite a m e, S754_finite b m' e' =>
      Bool.eqb a b && Pos.eqb m m' && Z.eqb e e'
  | _, _ => false
  end.

#[warnings="-register-all"]
Inductive json :=
| JNull
| JBool (b : bool)
| JNum (x : number)
| JStr (s : jsstring)
| JArr (items : list json)
| JObj (props : list (jsstring * json)).

(** The value of property [k] of an object literal or a parsed object: the
    last binding of the key wins. *)
Fixpoint lookupProp (props : list (jsstring * json)) (k : jsstring)
  : option json :=
  match props with
  | [] => None
  | (k', v) :: rest =>
      match lookupProp rest k with
      | Some v' => Some v'
      | None => if JS.eqb k' k then Some v else None
      end
  end.

(** Reading a named (non-index) property off a JSON value; [None] is
    [undefined]. *)
Definition getProp (o : json) (k : jsstring) : option json :=
  match o with
  | JObj props => lookupProp props k
  | _ => None
  end.

(** ToBoolean of a value or [undefined]. *)
Definition truthy (v : option json) : bool :=
  match v with
  | None | Some JNull => false
  | Some (JBool b) => b
  | Some (JNum (S754_zero _)) | Some (JNum S754_nan) => false
  | Some (JNum _) => true
  | Some (JStr s) => negb (JS.eqb s [])
  | Some (JArr _) | Some (JObj _) => true
  end.

(** Own enumerable properties of a value, in the order object spread
    copies them. *)
Definition ownProps (v : option json) : list (jsstring * json) :=
  match v with
  | Some (JObj props) => props
  | Some (JArr items) => imap (fun i x => (lit (pretty i), x)) items
  | Some (JStr s) => imap (fun i c => (lit (pretty i), JStr [c])) s
  | _ => []
  end.

(** [{ ...target, ...source }] onto an object under construction. *)
Definition spread (target : gmap jsstring json) (source : option json)
  : gmap jsstring json :=
  foldl (fun acc kv => <[kv.1 := kv.2]> acc) target (ownProps source).

Record resvg_opts := ResvgOpts {
  loadSystemFonts : bool;
  defaultFontFamily : jsstring;
  defaultFontSizeOpt : number
}.

Record config := Config {
  loader_load : list jsstring;
  tex_packages : list jsstring;
  tex_macros : gmap jsstring json
}.

(** ** Effects

    The script logs to the console, reads and writes files, probes
    processes and may terminate its own process.  A computation takes the
    world and gives an outcome and the world after it. *)

(** An [Error] object, as far as the script looks at it. *)
Record exn := Error { message : jsstring }.

Inductive event :=
| ConsoleLog (line : jsstring)
| ConsoleError (line : jsstring)
| FileRead (path : jsstring)
| FileWrite (path : jsstring)
| FileUnlink (path : jsstring)
| FileExists (path : jsstring)
| DescriptorRead (fd : number)
| DescriptorWrite (fd : number)
| Kill (pid : option Z) (signal : Z)
| Typeset (tex : jsstring) (display : bool)
| Rasterize (svg : jsstring) (opts : resvg_opts)
| MathJaxInit (cfg : config).

(** A file that exists holds text or bytes, or refuses every access. *)
Inductive file :=
| Text (text : jsstring)
| Binary (bytes : list N)
| Locked.

Record world := World {
  fs : gmap jsstring file;
  procs : gset Z;
  trace : list event
}.

Inductive outcome (A : Type) :=
| Returned (a : A)
| Threw (e : exn)
| Exited (code : Z).
Arguments Returned {A} a.
Arguments Threw {A} e.
Arguments Exited {A} code.

Definition M (A : Type) : Type := world -> outcome A * world.

Definition ret {A} (a : A) : M A := fun w => (Returned a, w).

Definition bind {A B} (m : M A) (k : A -> M B) : M B :=
  fun w =>
    match m w with
    | (Returned a, w') => k a w'
    | (Threw e, w') => (Threw e, w')
    | (Exited c, w') => (Exited c, w')
    end.

Definition throw {A} (e : exn) : M A := fun w => (Threw e, w).

(** [process.exit(code)]: no handler of the script sees it. *)
Definition process_exit {A} (code : Z) : M A := fun w => (Exited code, w).

(** [try { m } catch (err) { handler err }]. *)
Definition try_catch {A} (m : M A) (handler : exn -> M A) : M A :=
  fun w =>
    match m w with
    | (Threw e, w') => handler e w'
    | r => r
    end.

Definition emit (e : event) : M unit :=
  fun w => (Returned tt, World (fs w) (procs w) (trace w ++ [e])).

Definition lift {A} (r : exn + A) : M A :=
  match r with
  | inl e => throw e
  | inr a => ret a
  end.

Definition console_log (line : jsstring) : M unit := emit (ConsoleLog line).
Definition console_error (line : jsstring) : M unit := emit (ConsoleError line).

Declare Scope js_scope.
Delimit Scope js_scope with js.
Notation "x <- m ;; k" := (bind m (fun x => k))
  (at level 100, m at next level, right associativity) : js_scope.
Notation "m ;;; k" := (bind m (fun _ => k))
  (at level 100, right associativity) : js_scope.
Open Scope js_scope.

(** ** The content normalizer *)

Record NormalizedContent := Normalized {
  content : jsstring;
  display : bool
}.

Definition isDisplayMath (content : jsstring) : bool :=
  startsWith content (lit "$$") && endsWith content (lit "$$") ||
  startsWith content (lit "\[") && endsWith content (lit "\]").

Definition isInlineMath (content : jsstring) : bool :=
  startsWith content (lit "$") && endsWith content (lit "$") ||
  startsWith content (lit "\(") && endsWith content (lit "\)").

Definition noDelimiterNotice : jsstring :=
  lit "No recognized math delimiters found, treating as display math".

Definition processMathContent (content : jsstring) : M NormalizedContent :=
  if isDisplayMath content then
    if startsWith content (lit "$$")
    then ret (Normalized (trim (slice content 2 (-2))) true)
    else ret (Normalized (trim (slice content 2 (-2))) true)
  else if isInlineMath content then
    if startsWith content (lit "$")
    then ret (Normalized (trim (slice content 1 (-1))) false)
    else ret (Normalized (trim (slice content 2 (-2))) false)
  else
    console_log noDelimiterNotice ;;;
    ret (Normalized content true).


(** ** Node built-ins the script calls *)

(** [fs.existsSync(path)]. *)
Definition existsSync (path : jsstring) : M bool :=
  emit (FileExists path) ;;;
  fun w => (Returned (bool_decide (is_Some (fs w !! path))), w).

Definition enoent (syscall path : jsstring) : exn :=
  Error (lit "ENOENT: no such file or directory, " ++ syscall ++
         lit " '" ++ path ++ lit "'").

Definition eacces (syscall path : jsstring) : exn :=
  Error (lit "EACCES: permission denied, " ++ syscall ++
         lit " '" ++ path ++ lit "'").

Definition quoted (name : jsstring) : jsstring := [34%N] ++ name ++ [34%N].

Definition invalidArg (name type : jsstring) : exn :=
  Error (lit "The " ++ quoted name ++ lit " argument must be of type " ++ type).

(** What a call into a native addon can do: return, throw a JavaScript
    exception, or abort the whole process. *)
Inductive native (A : Type) :=
| Done (a : A)
| Raised (e : exn)
| Aborted.
Arguments Done {A} a.
Arguments Raised {A} e.
Arguments Aborted {A}.

(** A process killed by SIGABRT; shells report it as status 134. *)
Definition SIGABRT_status : Z := 134.

Definition liftNative {A} (r : native A) : M A :=
  match r with
  | Done a => ret a
  | Raised e => throw e
  | Aborted => process_exit SIGABRT_status
  end.

(** What lies outside the script and is not modelled in detail: the
    directory of the script, [ToNumber] on values that are not numbers,
    null or booleans, the UTF-8 decoder, [JSON.parse], what [fs] makes of
    a number given as path (it reads or writes through the open file
    descriptor of that number, or raises an error), the error of [fs] for
    a path that is neither a string nor a number, the paths that cannot be
    created or opened for writing (an empty path, a missing directory)
    with their error, and the native rasterizer [Resvg] with its render
    and encode steps. *)
Record externals := Externals {
  dirname : jsstring;
  toNumberOther : json -> number;
  utf8_decode : list N -> jsstring;
  JSON_parse : jsstring -> exn + json;
  readDescriptor : number -> exn + jsstring;
  writeDescriptor : number -> list N -> option exn;
  pathTypeError : json -> exn;
  unwritable : jsstring -> option exn;
  resvg : Type;
  rendered : Type;
  Resvg_new : jsstring -> resvg_opts -> native resvg;
  Resvg_render : resvg -> native rendered;
  asPng : rendered -> native (list N)
}.

(** The initialized typesetting engine handed to the [then] callback. *)
Record mathjax := MathJaxInstance {
  node : Type;
  tex2svg : jsstring -> bool -> exn + node;
  firstChild : node -> exn + node;
  setAttribute : node -> jsstring -> json -> exn + node;
  outerHTML : node -> exn + jsstring
}.

Section Server.

Context (X : externals).

(** [fs.readFileSync(path, "utf8")]: a string names a file, a number
    stands for an open descriptor, anything else is an error. *)
Definition readResult (files : gmap jsstring file) (p : jsstring)
  : exn + jsstring :=
  match files !! p with
  | Some (Text t) => inr t
  | Some (Binary b) => inr (utf8_decode X b)
  | Some Locked => inl (eacces (lit "open") p)
  | None => inl (enoent (lit "open") p)
  end.

Definition readFileSync (path : json) : M jsstring :=
  match path with
  | JStr p => emit (FileRead p) ;;; fun w => lift (readResult (fs w) p) w
  | JNum fd => emit (DescriptorRead fd) ;;; lift (readDescriptor X fd)
  | _ => throw (pathTypeError X path)
  end.

(** [fs.writeFileSync(path, buffer)]: the write fails on a path that
    cannot be opened for writing and on a file that refuses access. *)
Definition writeResult (files : gmap jsstring file) (p : jsstring)
    (data : list N) : exn + gmap jsstring file :=
  match unwritable X p with
  | Some e => inl e
  | None =>
      match files !! p with
      | Some Locked => inl (eacces (lit "open") p)
      | _ => inr (<[p := Binary data]> files)
      end
  end.

Definition writeFileSync (path : json) (data : list N) : M unit :=
  match path with
  | JStr p =>
      emit (FileWrite p) ;;;
      fun w =>
        match writeResult (fs w) p data with
        | inl e => (Threw e, w)
        | inr files => (Returned tt, World files (procs w) (trace w))
        end
  | JNum fd =>
      emit (DescriptorWrite fd) ;;;
      match writeDescriptor X fd data with
      | Some e => throw e
      | None => ret tt
      end
  | _ => throw (pathTypeError X path)
  end.

(** [fs.unlinkSync(path)]. *)
Definition unlinkSync (path : jsstring) : M unit :=
  emit (FileUnlink path) ;;;
  fun w =>
    match fs w !! path with
    | Some _ => (Returned tt, World (delete path (fs w)) (procs w) (trace w))
    | None => (Threw (enoent (lit "unlink") path), w)
    end.

(** [process.kill(pid, signal)]: it throws when [pid] is not a number or
    names no process; signal 0 only probes. *)
Definition process_kill (pid : option Z) (signal : Z) : M unit :=
  emit (Kill pid signal) ;;;
  fun w =>
    match pid with
    | None => (Threw (invalidArg (lit "pid") (lit "number")), w)
    | Some p =>
        if bool_decide (p ∈ procs w) then (Returned tt, w)
        else (Threw (Error (lit "kill ESRCH")), w)
    end.

(** [parseInt(string)]: leading white space, a sign, a [0x] prefix for
    radix 16, then the longest run of digits; [None] is NaN.  The value is
    the exact integer (the rounding of integers beyond 2^53 is left out). *)
Definition digitValue (c : code_unit) : option Z :=
  if N.leb 48 c && N.leb c 57 then Some (Z.of_N c - 48)
  else if N.leb 97 c && N.leb c 122 then Some (Z.of_N c - 87)
  else if N.leb 65 c && N.leb c 90 then Some (Z.of_N c - 55)
  else None.

Fixpoint parseDigits (radix : Z) (acc : option Z) (s : jsstring) : option Z :=
  match s with
  | [] => acc
  | c :: s' =>
      match digitValue c with
      | Some d =>
          if d <? radix
          then parseDigits radix (Some (default 0 acc * radix + d)) s'
          else acc
      | None => acc
      end
  end.

Definition parseInt (s : jsstring) : option Z :=
  let s1 := trimStart s in
  let '(sign, s2) :=
    match s1 with
    | 45%N :: r => (-1, r)
    | 43%N :: r => (1, r)
    | _ => (1, s1)
    end in
  let '(radix, s3) :=
    match s2 with
    | 48%N :: 120%N :: r | 48%N :: 88%N :: r => (16, r)
    | _ => (10, s2)
    end in
  (fun n => sign * n) <$> parseDigits radix None s3.

(** [Number(value)]. *)
Definition Number (v : json) : number :=
  match v with
  | JNum x => x
  | JNull => num 0
  | JBool b => if b then num 1 else num 0
  | _ => toNumberOther X v
  end.

(** ** Settings of the script *)

Definition defaultColor : jsstring := lit "#8ec07c".
Definition defaultFontSize : number := num 30.
Definition PID_FILE : jsstring := dirname X ++ lit "/tex2png-server.pid".
Definition PORT : Z := 3000.

Definition defaultMacros : json :=
  JObj [ (lit "bm", JArr [JStr (lit "\boldsymbol{#1}"); JNum (num 1)]);
         (lit "tag", JArr [JStr (lit "\qquad (\mathrm{#1})"); JNum (num 1)]) ].

(** ** The [/render] handler *)

Record response := Response {
  status : Z;
  body : json
}.

(** [res.status(code).json({ error: msg })]. *)
Definition errorResponse (code : Z) (msg : jsstring) : response :=
  Response code (JObj [(lit "error", JStr msg)]).

(** Destructuring [undefined] or [null] throws a TypeError. *)
Definition undefinedBody : exn :=
  Error (lit "Cannot destructure property 'inputFile' of 'req.body' as it is undefined.").
Definition nullBody : exn :=
  Error (lit "Cannot destructure property 'inputFile' of 'req.body' as it is null.").

Definition destructure (v : option json) : M json :=
  match v with
  | None => throw undefinedBody
  | Some JNull => throw nullBody
  | Some o => ret o
  end.

(** The options object built for the rasterizer. *)
Definition resvgOptions (fontSize : json) (display : bool) : resvg_opts :=
  {| loadSystemFonts := false;
     defaultFontFamily := lit "Latin Modern Math";
     defaultFontSizeOpt := js_add (Number fontSize) (if display then num 5 else num 0) |}.

(** The statements of the [try] block once the body is destructured. *)
Definition render_body (MathJax : mathjax) (o : json) : M response :=
  let inputFile := getProp o (lit "inputFile") in
  let outFile := default (JStr (lit "output.png")) (getProp o (lit "outFile")) in
  let color := default (JStr defaultColor) (getProp o (lit "color")) in
  let fontSize := default (JNum defaultFontSize) (getProp o (lit "fontSize")) in
  if negb (truthy inputFile) then
    ret (errorResponse 400 (lit "inputFile is required"))
  else
    read <- try_catch
              (text <- readFileSync (default JNull inputFile) ;;
               ret (inr (trim text)))
              (fun err =>
                 ret (inl (errorResponse 400
                             (lit "Error reading input file: " ++ message err)))) ;;
    match read with
    | inl early => ret early
    | inr fileContent =>
        math <- processMathContent fileContent ;;
        emit (Typeset math.(content) math.(display)) ;;;
        svg <- lift (tex2svg MathJax math.(content) math.(display)) ;;
        innerSVG <- lift (firstChild MathJax svg) ;;
        innerSVG <- lift (setAttribute MathJax innerSVG (lit "color") color) ;;
        svgString <- lift (outerHTML MathJax innerSVG) ;;
        let opts := resvgOptions fontSize math.(display) in
        emit (Rasterize svgString opts) ;;;
        resvg <- liftNative (Resvg_new X svgString opts) ;;
        pngData <- liftNative (Resvg_render X resvg) ;;
        pngBuffer <- liftNative (asPng X pngData) ;;
        writeFileSync outFile pngBuffer ;;;
        ret (Response 200 (JObj [(lit "success", JBool true); (lit "file", outFile)]))
    end.

Definition post_render (MathJax : mathjax) (req_body : option json) : M response :=
  try_catch
    (o <- destructure req_body ;;
     render_body MathJax o)
    (fun err =>
       console_error (message err) ;;;
       ret (errorResponse 500 (message err))).

(** ** Starting the server *)

(** A number in a template literal (a process id: decimal digits). *)
Definition showNumber (n : option Z) : jsstring :=
  match n with
  | Some z => lit (pretty z)
  | None => lit "NaN"
  end.

Definition loadCustomMacros (macrosFile : option jsstring) : M (option json) :=
  if truthy (JStr <$> macrosFile) then
    let file := default [] macrosFile in
    try_catch
      (present <- existsSync file ;;
       (if negb present then
          console_error (lit "Macros file not found: " ++ file) ;;;
          process_exit 1
        else ret tt) ;;;
       text <- readFileSync (JStr file) ;;
       parsed <- lift (JSON_parse X text) ;;
       ret (Some parsed))
      (fun err =>
         console_error (lit "Error loading macros file: " ++ message err) ;;;
         process_exit 1)
  else ret None.

Definition mathjaxConfig (customMacros : option json) : config :=
  {| loader_load :=
       [ lit "input/tex-base"; lit "[tex]/noundefined"; lit "[tex]/configmacros";
         lit "[tex]/ams"; lit "[tex]/mathtools"; lit "[tex]/boldsymbol";
         lit "output/svg" ];
     tex_packages :=
       [ lit "base"; lit "noundefined"; lit "configmacros"; lit "ams";
         lit "mathtools"; lit "boldsymbol" ];
     tex_macros := spread (spread ∅ (Some defaultMacros)) customMacros |}.

(** What [startServer] does once no live instance stands in the way, up to
    the call of [init]; the callbacks registered on the promise run after
    [startServer] has returned. *)
Definition freshStart (macrosFile : option jsstring) : M unit :=
  customMacros <- loadCustomMacros macrosFile ;;
  emit (MathJaxInit (mathjaxConfig customMacros)).

Definition startServer (macrosFile : option jsstring) : M unit :=
  present <- existsSync PID_FILE ;;
  if present then
    text <- readFileSync (JStr PID_FILE) ;;
    let pid := parseInt text in
    running <- try_catch
                 (process_kill pid 0 ;;;
                  console_log (lit "Server already running with PID " ++ showNumber pid) ;;;
                  ret true)
                 (fun e => unlinkSync PID_FILE ;;; ret false) ;;
    if running then ret tt else freshStart macrosFile
  else freshStart macrosFile.

End Server.

(** ** The words of the specification

    "The input with the k-character prefix and the k-character suffix
    removed", written without index arithmetic. *)
Definition withoutPrefix (k : nat) (s : jsstring) : jsstring := drop k s.
Definition withoutSuffix (k : nat) (s : jsstring) : jsstring :=
  take (length s - k) s.
Definition spec_stripped (k : nat) (s : jsstring) : jsstring :=
  withoutSuffix k (withoutPrefix k s).

(** The normalizer of the specification: display delimiters first, then
    inline delimiters, else the text as it is with display on. *)
Definition spec_normalize (s : jsstring) : NormalizedContent :=
  if isDisplayMath s then Normalized (trim (spec_stripped 2 s)) true
  else if isInlineMath s then
    Normalized (trim (spec_stripped (if startsWith s (lit "$") then 1 else 2) s))
               false
  else Normalized s true.

(** Logging one line to the console. *)
Definition logged (line : jsstring) (w : world) : world :=
  World (fs w) (procs w) (trace w ++ [ConsoleLog line]).

(** The events a computation added to the trace. *)
Definition events_since (w w' : world) : list event :=
  drop (length (trace w)) (trace w').

(** Whether the process answers a zero-signal probe. *)
Definition answersProbe (w : world) (pid : option Z) : bool :=
  match (process_kill pid 0 w).1 with
  | Returned _ => true
  | _ => false
  end.

(** The two library stages of a render as the specification names them:
    typesetting (text and display flag to coloured markup) and
    rasterization (markup and options to image bytes). *)
Section RenderSpec.

Context (X : externals) (MathJax : mathjax).

Definition spec_typeset (math : NormalizedContent) (color : json)
  : exn + jsstring :=
  match tex2svg MathJax (content math) (display math) with
  | inl e => inl e
  | inr svg =>
      match firstChild MathJax svg with
      | inl e => inl e
      | inr inner =>
          match setAttribute MathJax inner (lit "color") color with
          | inl e => inl e
          | inr coloured => outerHTML MathJax coloured
          end
      end
  end.

Definition spec_rasterize (svg : jsstring) (opts : resvg_opts)
  : native (list N) :=
  match Resvg_new X svg opts with
  | Done r =>
      match Resvg_render X r with
      | Done image => asPng X image
      | Raised e => Raised e
      | Aborted => Aborted
      end
  | Raised e => Raised e
  | Aborted => Aborted
  end.

End RenderSpec.

(** ** A small installation, for running the definitions *)
Module Demo.

Definition X : externals :=
  {| dirname := lit "/opt/tex2png";
     toNumberOther := fun _ => NaN;
     utf8_decode := fun bytes => bytes;
     JSON_parse := fun _ => inr (JObj [(lit "bm", JStr (lit "\mathbf{#1}"))]);
     readDescriptor := fun _ => inl (Error (lit "EBADF: bad file descriptor, read"));
     writeDescriptor := fun _ _ => Some (Error (lit "EBADF: bad file descriptor, write"));
     pathTypeError := fun _ => invalidArg (lit "path") (lit "string");
     unwritable := fun p =>
       if JS.eqb p [] then Some (enoent (lit "open") p) else None;
     resvg := jsstring;
     rendered := jsstring;
     Resvg_new := fun svg _ => Done svg;
     Resvg_render := fun r => Done r;
     asPng := fun image => Done image |}.

Definition MathJax : mathjax :=
  {| node := jsstring;
     tex2svg := fun tex _ => inr (lit "<svg>" ++ tex ++ lit "</svg>");
     firstChild := fun n => inr n;
     setAttribute := fun n _ _ => inr n;
     outerHTML := fun n => inr n |}.

Definition brokenMathJax : mathjax :=
  {| node := jsstring;
     tex2svg := fun _ _ => inl (Error (lit "TeX parse error"));
     firstChild := fun n => inr n;
     setAttribute := fun n _ _ => inr n;
     outerHTML := fun n => inr n |}.

Definition formula : jsstring := lit "/tmp/formula.tex".

Definition request : json :=
  JObj [(lit "inputFile", JStr formula); (lit "fontSize", JNum (num 25))].

Definition idle : world :=
  World {[ formula := Text (lit "$$E=mc^2$$") ]} ∅ [].

Definition running : world :=
  World {[ PID_FILE X := Text (lit "4242") ]} {[ 4242 ]} [].

Definition stale : world :=
  World {[ PID_FILE X := Text (lit "4242") ]} ∅ [].

End Demo.

(** ** Stopping the server, and the life of the record file *)
Section Lifecycle.

Context (X : externals).

(** The signal [stopServer] sends, by its number. *)
Definition SIGINT : Z := 2.

(** A command-line argument compared with a literal; a missing argument
    is [undefined] and equals no string. *)
Definition strictEq (arg : option jsstring) (s : jsstring) : bool :=
  match arg with
  | Some t => JS.eqb t s
  | None => false
  end.

(** [fs.writeFileSync(path, string)]: the file holds the text. *)
Definition writeTextFileSync (p : jsstring) (text : jsstring) : M unit :=
  emit (FileWrite p) ;;;
  fun w =>
    match fs w !! p with
    | Some Locked => (Threw (eacces (lit "open") p), w)
    | _ => (Returned tt, World (<[p := Text text]> (fs w)) (procs w) (trace w))
    end.

(** [stopServer]; the signal is delivered to another process, whose
    reaction is not part of this call. *)
Definition stopServer : M unit :=
  present <- existsSync (PID_FILE X) ;;
  if negb present then
    console_log (lit "Server is not running")
  else
    text <- readFileSync X (JStr (PID_FILE X)) ;;
    let pid := parseInt text in
    try_catch
      (process_kill pid SIGINT ;;;
       console_log (lit "Sent stop signal to server (PID " ++ showNumber pid ++
                    lit ")"))
      (fun err =>
         console_log (lit "Server not running (PID " ++ showNumber pid ++
                      lit ")") ;;;
         unlinkSync (PID_FILE X)).

(** The callback of [app.listen], run by the process [pid] once the port
    is bound. *)
Definition onListening (pid : Z) : M unit :=
  console_log (lit "Server running on port " ++ showNumber (Some PORT)) ;;;
  writeTextFileSync (PID_FILE X) (lit (pretty pid)).

(** The callback of [server.close] in the SIGINT handler. *)
Definition onServerClosed : M unit :=
  present <- existsSync (PID_FILE X) ;;
  (if present then unlinkSync (PID_FILE X) else ret tt) ;;;
  console_log (lit "Server stopped") ;;;
  process_exit 0.

(** The [catch] callback of the [init] promise. *)
Definition onInitFailed (err : exn) : M unit :=
  console_error (lit "MathJax initialization failed: " ++ message err) ;;;
  process_exit 1.

(** The command handling at the top of the server script; [args] is
    [process.argv.slice(2)]. *)
Definition server_main (args : list jsstring) : M unit :=
  let command := args !! 0%nat in
  if strictEq command (lit "start") then
    if (2 <=? length args)%nat then startServer X (args !! 1%nat)
    else startServer X None
  else if strictEq command (lit "stop") then
    stopServer
  else
    console_log (lit "Usage: tex2png-server.js [start|stop]") ;;;
    process_exit 1.

End Lifecycle.

(** ** The command-line client (tex2png.js), up to its first request to
    the server *)
Section Client.

(** [path.resolve], which makes a path absolute. *)
Context (path_resolve : jsstring -> jsstring).

Record renderArgs := RenderArgs {
  arg_inputFile : option jsstring;
  arg_outFile : json;
  arg_color : json;
  arg_fontSize : json;
  arg_macrosFile : option jsstring
}.

(** [value || fallback] for a string that may be [undefined]. *)
Definition orDefault (value : option jsstring) (fallback : json) : json :=
  if truthy (JStr <$> value) then default JNull (JStr <$> value)
  else fallback.

(** The positional arguments of a render command with their defaults. *)
Definition parseRenderArgs (args : list jsstring) : renderArgs :=
  let inputFile :=
    if (1 <=? length args)%nat then path_resolve <$> args !! 0%nat else None in
  let outFile := if (2 <=? length args)%nat then args !! 1%nat else None in
  let color := if (3 <=? length args)%nat then args !! 2%nat else None in
  let fontSize := if (4 <=? length args)%nat then args !! 3%nat else None in
  let macrosFile :=
    if (5 <=? length args)%nat then path_resolve <$> args !! 4%nat else None in
  {| arg_inputFile := inputFile;
     arg_outFile := orDefault outFile (JStr (lit "output.png"));
     arg_color := orDefault color (JStr (lit "#8ec07c"));
     arg_fontSize := orDefault fontSize (JNum (num 25));
     arg_macrosFile := macrosFile |}.

(** The object the client posts to [/render]; an [undefined] field is left
    out by [JSON.stringify]. *)
Definition requestData (a : renderArgs) : json :=
  JObj (match arg_inputFile a with
        | Some p => [(lit "inputFile", JStr p)]
        | None => []
        end ++
        [(lit "outFile", arg_outFile a);
         (lit "color", arg_color a);
         (lit "fontSize", arg_fontSize a)]).

Definition clientUsage : jsstring :=
  lit "Usage:
  tex2png stop                                          - Stop the server
  tex2png <input> [output] [color] [fontSize] [macros]  - Render formula
  tex2png help                                          - Show this help".

(** What the client goes on to do once its arguments are accepted. *)
Inductive clientNext :=
| SpawnStop
| Render (a : renderArgs).

(** The client script from its start to the point where it turns to the
    server: the usage text, the [stop] command, and for a render command
    the arguments and the check that the input file exists. *)
Definition client_main (args : list jsstring) : M clientNext :=
  if (length args =? 0)%nat || strictEq (args !! 0%nat) (lit "help") then
    console_log clientUsage ;;;
    process_exit 0
  else if strictEq (args !! 0%nat) (lit "stop") then
    ret SpawnStop
  else
    let a := parseRenderArgs args in
    present <- match arg_inputFile a with
               | Some p => existsSync p
               | None => ret false
               end ;;
    if negb present then
      console_error (lit "Input file not found: " ++
                     default (lit "undefined") (arg_inputFile a)) ;;;
      process_exit 1
    else ret (Render a).

End Client.

(** ** Notions for the statements about the record file and the macros *)

(** A code unit that is a decimal digit. *)
Definition isDigit (c : code_unit) : Prop := (48 <= c <= 57)%N.

(** [s] is a run of decimal digits that [parseDigits] reads as [n]. *)
Definition readsAs (s : jsstring) (n : Z) : Prop :=
  Forall isDigit s /\
  (s = [] -> n = 0) /\
  forall acc,
    parseDigits 10 acc s =
      match s with
      | [] => acc
      | _ => Some (default 0 acc * 10 ^ Z.of_nat (length s) + n)
      end.

(** What reading and parsing the macros file gives. *)
Definition macrosFromFile (X : externals) (w : world) (file : jsstring)
  : exn + json :=
  match readResult X (fs w) file with
  | inl e => inl e
  | inr text => JSON_parse X text
  end.

(** What a record file may hold for the exact integers of [parseInt] and
    the process table to agree with JavaScript: no number at all, or a
    positive process id below 2^31. *)
Definition plausibleRecord (pid : option Z) : Prop :=
  match pid with
  | Some z => 0 < z < 2 ^ 31
  | None => True
  end.

(** Worlds in which a file refuses access, and a rasterizer that aborts. *)
Module Scenes.

(** A native rasterizer that aborts the process when it is asked for a
    default font size of 2^53 or more, and otherwise hands the markup on
    as the image. *)
Definition abortingX : externals :=
  {| dirname := dirname Demo.X;
     toNumberOther := toNumberOther Demo.X;
     utf8_decode := utf8_decode Demo.X;
     JSON_parse := JSON_parse Demo.X;
     readDescriptor := readDescriptor Demo.X;
     writeDescriptor := writeDescriptor Demo.X;
     pathTypeError := pathTypeError Demo.X;
     unwritable := unwritable Demo.X;
     resvg := jsstring;
     rendered := jsstring;
     Resvg_new := fun svg opts =>
       if SFleb (num (2 ^ 53)) (defaultFontSizeOpt opts)
       then Aborted else Done svg;
     Resvg_render := fun r => Done r;
     asPng := fun image => Done image |}.

(** A request for the formula of [Demo.idle] with the font size 2^53. *)
Definition hugeFont : json :=
  JObj [(lit "inputFile", JStr Demo.formula);
        (lit "fontSize", JNum (num (2 ^ 53)))].

Definition lockedMacros : world :=
  World {[ lit "macros.json" := Locked ]} ∅ [].

Definition lockedRecord : world :=
  World {[ PID_FILE Demo.X := Locked ]} ∅ [].

Definition serving : world := World ∅ {[ 4242 ]} [].

End Scenes.

(** * Properties *)

(** Running the effect combinators of a computation applied to a world. *)
Ltac run :=
  cbv beta iota zeta delta
    [bind ret throw lift liftNative emit try_catch process_exit console_log
     console_error existsSync readFileSync writeFileSync unlinkSync
     process_kill destructure logged from_option id];
  cbn [fs procs trace fst snd].

(** An event of the trace is one of those listed: by cases. *)
Ltac pick_event :=
  let H := fresh "Hin" in
  intros H; set_unfold in H; destruct_or?;
  first [assumption | discriminate | contradiction].

(** ** Strings *)

Lemma eqb_refl (s : jsstring) : JS.eqb s s = true.
Proof.
  induction s as [|c s IH]; simpl; [reflexivity|].
  rewrite N.eqb_refl. exact IH.
Qed.

Lemma eqb_eq (s t : jsstring) : JS.eqb s t = true <-> s = t.
Proof.
  split; [|intros ->; apply eqb_refl].
  revert t. induction s as [|c s IH]; intros [|d t]; simpl; try discriminate.
  - reflexivity.
  - intros H. apply andb_true_iff in H as [Hc Hs].
    apply N.eqb_eq in Hc. apply IH in Hs. congruence.
Qed.

Lemma slice_stripped (k : nat) (s : jsstring) :
  (1 <= k)%nat ->
  slice s (Z.of_nat k) (- Z.of_nat k) = spec_stripped k s.
Proof.
  intros Hk. unfold slice, spec_stripped, withoutSuffix, withoutPrefix.
  destruct (Z.ltb_spec (Z.of_nat k) 0) as [?|_]; [lia|].
  destruct (Z.ltb_spec (- Z.of_nat k) 0) as [_|?]; [|lia].
  destruct (Nat.le_gt_cases (length s) k) as [Hle|Hlt].
  - rewrite Z.min_r by lia. rewrite Nat2Z.id.
    rewrite (drop_ge s (length s)) by lia.
    rewrite (drop_ge s k) by lia. now rewrite !take_nil.
  - rewrite Z.min_l by lia. rewrite Nat2Z.id.
    rewrite length_drop. f_equal. lia.
Qed.

Lemma startsWith_dollar_not_bracket (s : jsstring) :
  startsWith s (lit "$") = true -> startsWith s (lit "\[") = false.
Proof.
  destruct s as [|c s]; [discriminate|].
  change (lit "$") with [36%N]. change (lit "\[") with [92%N; 91%N].
  cbn [startsWith]. rewrite andb_true_r.
  intros Hc. apply N.eqb_eq in Hc. subst c. reflexivity.
Qed.

(** ** The content normalizer *)

(** When neither pattern matches, the content passes through, display mode
    is on and the notice is logged. *)
Lemma processMathContent_passthrough (s : jsstring) (w : world) :
  isDisplayMath s = false ->
  isInlineMath s = false ->
  processMathContent s w = (Returned (Normalized s true), logged noDelimiterNotice w).
Proof.
  intros Hd Hi. unfold processMathContent. rewrite Hd, Hi. reflexivity.
Qed.

(** C1, as stated, fails: ["$$x$"] starts and ends with ["$"], so it is
    taken as inline math; the content becomes ["$x"] and display is off. *)
Lemma normalizer_mismatched_dollars_is_inline :
  processMathContent (lit "$$x$") (World ∅ ∅ []) =
    (Returned (Normalized (lit "$x") false), World ∅ ∅ []) /\
  (processMathContent (lit "$$x$") (World ∅ ∅ [])).1 <>
    Returned (Normalized (lit "$$x$") true).
Proof.
  split; [reflexivity|]. vm_compute. discriminate.
Qed.

(** C1 (amended): a string for which none of the four start/end tests
    holds, such as ["x"], is returned unchanged with display on (and the
    notice is logged). *)
Theorem normalizer_no_delimiters_passthrough (s : jsstring) (w : world) :
  startsWith s (lit "$$") && endsWith s (lit "$$") = false ->
  startsWith s (lit "\[") && endsWith s (lit "\]") = false ->
  startsWith s (lit "$") && endsWith s (lit "$") = false ->
  startsWith s (lit "\(") && endsWith s (lit "\)") = false ->
  processMathContent s w =
    (Returned (Normalized s true), logged noDelimiterNotice w).
Proof.
  intros H1 H2 H3 H4.
  apply processMathContent_passthrough; unfold isDisplayMath, isInlineMath.
  - now rewrite H1, H2.
  - now rewrite H3, H4.
Qed.

Lemma normalizer_no_delimiters_passthrough_witness :
  processMathContent (lit "x") (World ∅ ∅ []) =
    (Returned (Normalized (lit "x") true),
     logged noDelimiterNotice (World ∅ ∅ [])).
Proof.
  apply (normalizer_no_delimiters_passthrough (lit "x") (World ∅ ∅ []));
    reflexivity.
Defined.

(** C2: a string of length at least 4 that starts and ends with ["$$"] is
    display math; its content is the input without the two-character prefix
    and suffix, trimmed. *)
Theorem normalizer_display_dollars (s : jsstring) (w : world) :
  (4 <= length s)%nat ->
  startsWith s (lit "$$") = true ->
  endsWith s (lit "$$") = true ->
  processMathContent s w =
    (Returned (Normalized (trim (spec_stripped 2 s)) true), w).
Proof.
  intros _ Hs He. unfold processMathContent, isDisplayMath.
  rewrite Hs, He. simpl.
  now rewrite <- (slice_stripped 2 s) by lia.
Qed.

Lemma normalizer_display_dollars_witness :
  processMathContent (lit "$$ E=mc^2 $$") (World ∅ ∅ []) =
    (Returned (Normalized (trim (spec_stripped 2 (lit "$$ E=mc^2 $$"))) true),
     World ∅ ∅ []).
Proof.
  apply (normalizer_display_dollars (lit "$$ E=mc^2 $$") (World ∅ ∅ []));
    [simpl; lia | reflexivity | reflexivity].
Defined.

(** C3: a string that starts and ends with ["$"] and is not wrapped in
    ["$$"] is inline math (it cannot be wrapped in [\[ \]] either); its
    content is the input without the one-character prefix and suffix,
    trimmed. *)
Theorem normalizer_inline_dollar (s : jsstring) (w : world) :
  startsWith s (lit "$") = true ->
  endsWith s (lit "$") = true ->
  startsWith s (lit "$$") && endsWith s (lit "$$") = false ->
  isDisplayMath s = false /\
  processMathContent s w =
    (Returned (Normalized (trim (spec_stripped 1 s)) false), w).
Proof.
  intros Hs He Hnot.
  assert (Hd : isDisplayMath s = false).
  { unfold isDisplayMath.
    now rewrite Hnot, (startsWith_dollar_not_bracket s Hs). }
  split; [exact Hd|].
  unfold processMathContent, isInlineMath.
  rewrite Hd, Hs, He. simpl.
  now rewrite <- (slice_stripped 1 s) by lia.
Qed.

Lemma normalizer_inline_dollar_witness :
  isDisplayMath (lit "$ a+b $") = false /\
  processMathContent (lit "$ a+b $") (World ∅ ∅ []) =
    (Returned (Normalized (trim (spec_stripped 1 (lit "$ a+b $"))) false),
     World ∅ ∅ []).
Proof.
  apply (normalizer_inline_dollar (lit "$ a+b $") (World ∅ ∅ []));
    reflexivity.
Defined.

(** C4: on a string that matches none of the delimiter patterns the
    normalizer returns the same text with display on, and normalizing its
    output again returns the same. *)
Theorem normalizer_idempotent_without_delimiters (s : jsstring) (w : world) :
  isDisplayMath s = false ->
  isInlineMath s = false ->
  (processMathContent s w).1 = Returned (Normalized s true) /\
  ((r <- processMathContent s ;; processMathContent (content r)) w).1 =
    (processMathContent s w).1.
Proof.
  intros Hd Hi. unfold bind.
  rewrite (processMathContent_passthrough s w Hd Hi). simpl.
  split; [reflexivity|].
  now rewrite (processMathContent_passthrough s _ Hd Hi).
Qed.

Lemma normalizer_idempotent_without_delimiters_witness :
  (processMathContent (lit "x^2") (World ∅ ∅ [])).1 =
    Returned (Normalized (lit "x^2") true) /\
  ((r <- processMathContent (lit "x^2") ;; processMathContent (content r))
     (World ∅ ∅ [])).1 =
    (processMathContent (lit "x^2") (World ∅ ∅ [])).1.
Proof.
  apply (normalizer_idempotent_without_delimiters (lit "x^2") (World ∅ ∅ []));
    reflexivity.
Defined.

(** C9: ["$$"] and ["$$$"] start and end with ["$$"]; they take the display
    branch and give the empty content with display on, and nothing is
    thrown. *)
Theorem normalizer_short_dollars (w : world) :
  isDisplayMath (lit "$$") = true /\
  isDisplayMath (lit "$$$") = true /\
  processMathContent (lit "$$") w = (Returned (Normalized [] true), w) /\
  processMathContent (lit "$$$") w = (Returned (Normalized [] true), w).
Proof. repeat split. Qed.

(** The normalizer computes the normalized content of the specification
    and logs the notice exactly when no pattern matches. *)
Lemma processMathContent_spec (s : jsstring) (w : world) :
  processMathContent s w =
    (Returned (spec_normalize s),
     if isDisplayMath s || isInlineMath s then w
     else logged noDelimiterNotice w).
Proof.
  unfold processMathContent, spec_normalize.
  assert (S1 : slice s 1 (-1) = spec_stripped 1 s)
    by exact (slice_stripped 1 s ltac:(lia)).
  assert (S2 : slice s 2 (-2) = spec_stripped 2 s)
    by exact (slice_stripped 2 s ltac:(lia)).
  rewrite S1, S2.
  destruct (isDisplayMath s); cbn [orb].
  - now destruct (startsWith s (lit "$$")).
  - destruct (isInlineMath s); [|reflexivity].
    now destruct (startsWith s (lit "$")).
Qed.

(** ** Macros *)

Lemma spread_lookup (props : list (jsstring * json)) (m : gmap jsstring json)
    (k : jsstring) :
  foldl (fun acc kv => <[kv.1 := kv.2]> acc) m props !! k =
    match lookupProp props k with
    | Some v => Some v
    | None => m !! k
    end.
Proof.
  revert m. induction props as [|[k' v] rest IH]; intros m; [reflexivity|].
  cbn [foldl lookupProp fst snd]. rewrite IH.
  destruct (lookupProp rest k); [reflexivity|].
  destruct (JS.eqb k' k) eqn:E.
  - apply eqb_eq in E. subst k'. apply lookup_insert_eq.
  - rewrite lookup_insert_ne; [reflexivity|].
    intros ->. now rewrite eqb_refl in E.
Qed.

(** C10: in the merged macros a name the user's object defines has the
    user's definition, also for [bm] and [tag]; every other name has what
    the built-in macros give it.  Without a user object the macros are the
    built-in ones. *)
Theorem merged_macros_lookup (props : list (jsstring * json)) (k : jsstring) :
  tex_macros (mathjaxConfig (Some (JObj props))) !! k =
    match lookupProp props k with
    | Some v => Some v
    | None => getProp defaultMacros k
    end /\
  tex_macros (mathjaxConfig None) !! k = getProp defaultMacros k.
Proof.
  unfold mathjaxConfig, spread, defaultMacros. cbn [tex_macros ownProps getProp].
  rewrite !spread_lookup, lookup_empty.
  split.
  - destruct (lookupProp props k); [reflexivity|].
    now destruct (lookupProp _ k).
  - change (lookupProp [] k) with (@None json). cbv iota.
    now destruct (lookupProp _ k).
Qed.

(** ** The render handler *)

(** C6: a request whose JSON body has no [inputFile] field is answered
    with status 400 and the message "inputFile is required", which names
    the field; the world is left as it was, so no file was read and nothing
    was rendered. *)
Theorem render_missing_inputFile (X : externals) (MathJax : mathjax)
    (props : list (jsstring * json)) (w : world) :
  lookupProp props (lit "inputFile") = None ->
  post_render X MathJax (Some (JObj props)) w =
    (Returned (errorResponse 400 (lit "inputFile is required")), w) /\
  status (errorResponse 400 (lit "inputFile is required")) = 400 /\
  startsWith (lit "inputFile is required") (lit "inputFile") = true.
Proof.
  intros Hmissing. split; [|split; reflexivity].
  unfold post_render, render_body, try_catch, bind, destructure, ret.
  cbn [getProp]. rewrite Hmissing. reflexivity.
Qed.

Lemma render_missing_inputFile_witness :
  post_render Demo.X Demo.MathJax
      (Some (JObj [(lit "outFile", JStr (lit "a.png"))])) Demo.idle =
    (Returned (errorResponse 400 (lit "inputFile is required")), Demo.idle) /\
  status (errorResponse 400 (lit "inputFile is required")) = 400 /\
  startsWith (lit "inputFile is required") (lit "inputFile") = true.
Proof.
  apply (render_missing_inputFile Demo.X Demo.MathJax
           [(lit "outFile", JStr (lit "a.png"))] Demo.idle).
  reflexivity.
Defined.

(** Running a computation in which the file reads and writes are left
    folded, to be treated by their effects. *)
Ltac step :=
  cbv beta iota zeta delta
    [bind ret throw lift liftNative emit try_catch process_exit console_log
     console_error destructure logged from_option id];
  cbn [fs procs trace fst snd].

(** Reading changes no file and no process; it returns or throws, and
    records one read at most. *)
Lemma readFileSync_effects (X : externals) (path : json) (w : world) :
  exists evs,
    (readFileSync X path w).2 = World (fs w) (procs w) (trace w ++ evs) /\
    (forall c, (readFileSync X path w).1 <> Exited c) /\
    forall ev, ev ∈ evs ->
      (exists p, ev = FileRead p) \/ (exists fd, ev = DescriptorRead fd).
Proof.
  assert (Hnone : forall r : outcome jsstring,
            (forall c, r <> Exited c) ->
            exists evs,
              (r, w).2 = World (fs w) (procs w) (trace w ++ evs) /\
              (forall c, (r, w).1 <> Exited c) /\
              forall ev, ev ∈ evs ->
                (exists p, ev = FileRead p) \/ (exists fd, ev = DescriptorRead fd)).
  { intros r Hr. exists []. rewrite app_nil_r. destruct w.
    split; [reflexivity|]. split; [exact Hr|].
    intros ev Hin%elem_of_nil. destruct Hin. }
  destruct path as [| |x|p| |]; try (apply Hnone; discriminate).
  - run. exists [DescriptorRead x].
    destruct (readDescriptor X x); run;
      (split; [reflexivity|]; split; [discriminate|]);
      intros ev Hin; apply list_elem_of_singleton in Hin; eauto.
  - run. exists [FileRead p].
    destruct (readResult X (fs w) p); run;
      (split; [reflexivity|]; split; [discriminate|]);
      intros ev Hin; apply list_elem_of_singleton in Hin; eauto.
Qed.

(** Writing changes no process; it returns or throws, records one write
    at most, and changes a file only when it returns from writing to a
    path, which then holds the data. *)
Lemma writeFileSync_effects (X : externals) (path : json) (data : list N)
    (w : world) :
  exists evs,
    trace (writeFileSync X path data w).2 = trace w ++ evs /\
    procs (writeFileSync X path data w).2 = procs w /\
    (forall c, (writeFileSync X path data w).1 <> Exited c) /\
    (forall ev, ev ∈ evs ->
       (exists p, ev = FileWrite p) \/ (exists fd, ev = DescriptorWrite fd)) /\
    ((writeFileSync X path data w).1 <> Returned tt ->
     fs (writeFileSync X path data w).2 = fs w).
Proof.
  assert (Hnone : forall e : exn,
            exists evs,
              trace (@Threw unit e, w).2 = trace w ++ evs /\
              procs (@Threw unit e, w).2 = procs w /\
              (forall c, (@Threw unit e, w).1 <> Exited c) /\
              (forall ev, ev ∈ evs ->
                 (exists p, ev = FileWrite p) \/
                 (exists fd, ev = DescriptorWrite fd)) /\
              ((@Threw unit e, w).1 <> Returned tt ->
               fs (@Threw unit e, w).2 = fs w)).
  { intros e. exists []. rewrite app_nil_r. repeat split; try discriminate.
    intros ev Hin%elem_of_nil. destruct Hin. }
  destruct path as [| |x|p| |]; try apply Hnone.
  - run. exists [DescriptorWrite x].
    destruct (writeDescriptor X x data); run;
      repeat split; try discriminate; try congruence;
      intros ev Hin; apply list_elem_of_singleton in Hin; eauto.
  - run. exists [FileWrite p].
    destruct (writeResult X (fs w) p data); run;
      repeat split; try discriminate; try congruence;
      intros ev Hin; apply list_elem_of_singleton in Hin; eauto.
Qed.

(** An unreadable input file and a failing typesetter, run. *)
Example render_unreadable_input :
  (post_render Demo.X Demo.MathJax
     (Some (JObj [(lit "inputFile", JStr (lit "/none.tex"))])) Demo.idle).1 =
  Returned (errorResponse 400
    (lit "Error reading input file: ENOENT: no such file or directory, open '/none.tex'")).
Proof. reflexivity. Qed.

Example render_typesetter_fails :
  (post_render Demo.X Demo.brokenMathJax (Some Demo.request) Demo.idle).1 =
  Returned (errorResponse 500 (lit "TeX parse error")).
Proof. reflexivity. Qed.

(** The cases of a run of the [try] block: the input file missing, the
    read, the normalizer, the calls of the libraries and the write.  The
    read and the write are described by their effects. *)
Ltac render_cases X MathJax o w :=
  unfold render_body; cbv zeta;
  generalize (default (JStr (lit "output.png")) (getProp o (lit "outFile")));
  generalize (default (JStr defaultColor) (getProp o (lit "color")));
  generalize (default (JNum defaultFontSize) (getProp o (lit "fontSize")));
  intros fontSize color outFile;
  destruct (truthy (getProp o (lit "inputFile"))) eqn:Ht; cbn [negb];
  [ destruct (getProp o (lit "inputFile")) as [inputFile|] eqn:Hfile;
    [|discriminate Ht];
    step;
    destruct (readFileSync_effects X inputFile w) as (evsR & HwR & HexR & HevR);
    destruct (readFileSync X inputFile w) as [[text|e|c] w1] eqn:Hread;
    cbn [fst snd] in HwR, HexR; subst w1;
    [ step; rewrite processMathContent_spec;
      set (math := spec_normalize (trim text));
      destruct (isDisplayMath (trim text) || isInlineMath (trim text)); step;
      repeat match goal with
        | |- context [match ?x with inl _ => _ | inr _ => _ end] =>
            destruct x; step
        | |- context [match ?x with Done _ => _ | Raised _ => _
                                 | Aborted => _ end] =>
            destruct x; step
        end;
      try match goal with
        | |- context [writeFileSync X ?p ?d ?w0] =>
            destruct (writeFileSync_effects X p d w0)
              as (evsW & HtW & HpW & HexW & HevW & HfW);
            destruct (writeFileSync X p d w0) as [[[]|e|c] w2] eqn:Hwrite;
            cbn [fst snd trace procs fs] in HtW, HpW, HexW, HfW;
            [ | | now destruct (HexW c) ]; step
        end
    | step
    | now destruct (HexR c) ]
  | ].

(** Membership of an event in the trace of a run, by cases; the events of
    the read and of the write are none of the library calls. *)
Ltac trace_cases Hin :=
  repeat (rewrite elem_of_app in Hin || rewrite elem_of_cons in Hin ||
          rewrite elem_of_nil in Hin);
  destruct_or?;
  try discriminate; try contradiction;
  try match goal with
      | H : forall ev, ev ∈ ?evs -> _, Hev : _ ∈ ?evs |- _ =>
          apply H in Hev as [[? Hev]|[? Hev]]; discriminate Hev
      end.

(** The events of the [try] block extend the trace, and the rasterizer is
    only ever called with the options built from the request's font size
    and the display flag of the normalized content of what was read. *)
Lemma render_body_events (X : externals) (MathJax : mathjax) (o : json)
    (w : world) :
  exists evs,
    trace (render_body X MathJax o w).2 = trace w ++ evs /\
    forall svg opts,
      Rasterize svg opts ∈ evs ->
      exists inputFile text,
        getProp o (lit "inputFile") = Some inputFile /\
        (readFileSync X inputFile w).1 = Returned text /\
        opts = resvgOptions X
                 (default (JNum defaultFontSize) (getProp o (lit "fontSize")))
                 (display (spec_normalize (trim text))).
Proof.
  render_cases X MathJax o w.
  all: cbn [snd trace]; rewrite ?HtW; rewrite <- ?app_assoc.
  all: first [ eexists; split; [reflexivity|]
             | exists []; split; [now rewrite app_nil_r|] ].
  all: intros svg opts Hin; trace_cases Hin.
  all: match goal with H : Rasterize _ _ = Rasterize _ _ |- _ =>
         injection H as -> -> end.
  all: exists inputFile, text; rewrite Hread; auto.
Qed.

(** How the [try] block can end: with the success response, with a
    client error, with an exception for the [catch], or with the process
    aborted inside the rasterizer. *)
Lemma render_body_outcomes (X : externals) (MathJax : mathjax) (o : json)
    (w : world) :
  match (render_body X MathJax o w).1 with
  | Returned r =>
      (status r = 200 /\
       body r =
         JObj [(lit "success", JBool true);
               (lit "file",
                default (JStr (lit "output.png")) (getProp o (lit "outFile")))]) \/
      exists msg, status r = 400 /\ body r = JObj [(lit "error", JStr msg)]
  | Threw _ => True
  | Exited code => code = SIGABRT_status
  end.
Proof.
  render_cases X MathJax o w.
  all: cbn [fst]; try exact I; try reflexivity.
  all: first [ left; split; reflexivity
             | right; eexists; split; reflexivity ].
Qed.

(** No exception leaves the handler: it returns the success response or
    an error object with status 400 or 500, unless the rasterizer aborts
    the process. *)
Lemma render_returns_or_aborts (X : externals) (MathJax : mathjax)
    (req_body : option json) (w : world) :
  match (post_render X MathJax req_body w).1 with
  | Returned r =>
      (status r = 200 /\
       exists out,
         body r = JObj [(lit "success", JBool true); (lit "file", out)]) \/
      exists msg,
        (status r = 400 \/ status r = 500) /\
        body r = JObj [(lit "error", JStr msg)]
  | Threw _ => False
  | Exited code => code = SIGABRT_status
  end.
Proof.
  unfold post_render.
  destruct req_body as [o|];
    [|run; right; eexists; split; [right|]; reflexivity].
  destruct o;
    [run; right; eexists; split; [right|]; reflexivity|..].
  all: run.
  all: match goal with
       | |- context [render_body _ _ ?body _] =>
           pose proof (render_body_outcomes X MathJax body w) as Hbody;
           destruct (render_body X MathJax body w) as [[r|e|c] w']
       end; cbn [fst snd] in *; run.
  all: try exact Hbody.
  all: try (right; eexists; split; [right|]; reflexivity).
  all: destruct Hbody as [[H200 Hbody]|(msg & H400 & Hbody)];
    [left; eauto|right; exists msg; auto].
Qed.

(** C7 (code bug): the handler hands the font size of the request to the
    native rasterizer unchecked.  With a rasterizer that aborts the process
    for the font size 2^53, the request ends the server process: nothing
    is caught, no response is sent and the handler does not return. *)
Theorem render_abort_ends_process :
  post_render Scenes.abortingX Demo.MathJax (Some Scenes.hugeFont) Demo.idle =
    (Exited SIGABRT_status,
     World (fs Demo.idle) (procs Demo.idle)
       [FileRead Demo.formula;
        Typeset (lit "E=mc^2") true;
        Rasterize (lit "<svg>E=mc^2</svg>")
          (resvgOptions Scenes.abortingX (JNum (num (2 ^ 53))) true)]).
Proof. vm_compute. reflexivity. Qed.

Lemma sameValueZero_refl (x : number) : sameValueZero x x = true.
Proof.
  destruct x as [s| s| |s m e]; cbn; try reflexivity.
  - now destruct s.
  - rewrite Pos.eqb_refl, Z.eqb_refl. now destruct s.
Qed.

(** Adding zero gives the same number (a negative zero becomes zero). *)
Lemma js_add_zero (x : number) : sameValueZero (js_add x (num 0)) x = true.
Proof.
  destruct x as [s| s| |s m e]; try reflexivity.
  - now destruct s.
  - now destruct s.
  - apply (sameValueZero_refl (S754_finite s m e)).
Qed.

(** C5: whenever the handler calls the rasterizer, the options switch
    system fonts off, name the fallback family "Latin Modern Math", and set
    the default font size to the font size of the request plus 5 when the
    normalized content of what was read from the input file (a path or an
    open descriptor) is display math, and to the font size itself (plus
    zero) when it is inline math. *)
Theorem rasterizer_options (X : externals) (MathJax : mathjax)
    (req_body : option json) (w : world) (svg : jsstring) (opts : resvg_opts) :
  Rasterize svg opts ∈ events_since w (post_render X MathJax req_body w).2 ->
  exists o inputFile text math,
    req_body = Some o /\
    getProp o (lit "inputFile") = Some inputFile /\
    (readFileSync X inputFile w).1 = Returned text /\
    (processMathContent (trim text) w).1 = Returned math /\
    let fontSize :=
      Number X (default (JNum defaultFontSize) (getProp o (lit "fontSize"))) in
    loadSystemFonts opts = false /\
    defaultFontFamily opts = lit "Latin Modern Math" /\
    if display math
    then defaultFontSizeOpt opts = js_add fontSize (num 5)
    else defaultFontSizeOpt opts = js_add fontSize (num 0) /\
         sameValueZero (defaultFontSizeOpt opts) fontSize = true.
Proof.
  unfold events_since, post_render. intros Hin.
  destruct req_body as [o|];
    [|revert Hin; run; rewrite drop_app_length; pick_event].
  destruct (render_body_events X MathJax o w) as (evs & Htrace & Hopts).
  assert (Hevs : Rasterize svg opts ∈ evs).
  { revert Hin. destruct o; run;
      try (rewrite drop_app_length; pick_event).
    all: destruct (render_body X MathJax _ w) as [[r|e|c] w'];
      cbn [snd] in Htrace; run; rewrite Htrace, <- ?app_assoc, drop_app_length;
      pick_event. }
  destruct (Hopts svg opts Hevs) as (inputFile & text & Hfile & Hread & ->).
  exists o, inputFile, text, (spec_normalize (trim text)).
  rewrite processMathContent_spec. cbn [fst resvgOptions loadSystemFonts
    defaultFontFamily defaultFontSizeOpt].
  repeat split; try assumption.
  destruct (display (spec_normalize (trim text))); [reflexivity|].
  split; [reflexivity|apply js_add_zero].
Qed.

Lemma rasterizer_options_witness :
  exists o inputFile text math,
    Some Demo.request = Some o /\
    getProp o (lit "inputFile") = Some inputFile /\
    (readFileSync Demo.X inputFile Demo.idle).1 = Returned text /\
    (processMathContent (trim text) Demo.idle).1 = Returned math /\
    let fontSize :=
      Number Demo.X
        (default (JNum defaultFontSize) (getProp o (lit "fontSize"))) in
    loadSystemFonts (resvgOptions Demo.X (JNum (num 25)) true) = false /\
    defaultFontFamily (resvgOptions Demo.X (JNum (num 25)) true) =
      lit "Latin Modern Math" /\
    if display math
    then defaultFontSizeOpt (resvgOptions Demo.X (JNum (num 25)) true) =
           js_add fontSize (num 5)
    else defaultFontSizeOpt (resvgOptions Demo.X (JNum (num 25)) true) =
           js_add fontSize (num 0) /\
         sameValueZero
           (defaultFontSizeOpt (resvgOptions Demo.X (JNum (num 25)) true))
           fontSize = true.
Proof.
  apply (rasterizer_options Demo.X Demo.MathJax (Some Demo.request) Demo.idle
           (lit "<svg>E=mc^2</svg>")
           (resvgOptions Demo.X (JNum (num 25)) true)).
  vm_compute. repeat constructor.
Defined.

(** ** Starting the server *)

(** C8: with a record file on disk, [startServer] probes the recorded
    process.  If the probe is answered it logs that the server is already
    running and returns: the files are as before and MathJax is not
    initialized.  If not, it deletes the record file and goes on with a
    fresh start. *)
Theorem startServer_existing_record (X : externals)
    (macrosFile : option jsstring) (w : world) (text : jsstring) :
  fs w !! PID_FILE X = Some (Text text) ->
  let pid := parseInt text in
  let probed :=
    World (fs w) (procs w)
          (trace w ++ [FileExists (PID_FILE X); FileRead (PID_FILE X);
                       Kill pid 0]) in
  startServer X macrosFile w =
    if answersProbe w pid then
      (Returned tt,
       logged (lit "Server already running with PID " ++ showNumber pid) probed)
    else
      freshStart X macrosFile
        (World (delete (PID_FILE X) (fs w)) (procs w)
               (trace probed ++ [FileUnlink (PID_FILE X)])).
Proof.
  intros Hrecord pid probed.
  unfold startServer, answersProbe, logged. subst probed. run.
  rewrite bool_decide_eq_true_2 by eauto. run.
  unfold readResult. rewrite Hrecord. run.
  fold pid.
  destruct pid as [p|].
  - destruct (bool_decide (p ∈ procs w)); run.
    + now rewrite <- !app_assoc.
    + rewrite Hrecord. now rewrite <- !app_assoc.
  - run. rewrite Hrecord. now rewrite <- !app_assoc.
Qed.

Lemma startServer_existing_record_witness :
  startServer Demo.X None Demo.running =
    (Returned tt,
     logged (lit "Server already running with PID 4242")
       (World (fs Demo.running) (procs Demo.running)
          [FileExists (PID_FILE Demo.X); FileRead (PID_FILE Demo.X);
           Kill (Some 4242) 0])) /\
  startServer Demo.X None Demo.stale =
    freshStart Demo.X None
      (World (delete (PID_FILE Demo.X) (fs Demo.stale)) ∅
         [FileExists (PID_FILE Demo.X); FileRead (PID_FILE Demo.X);
          Kill (Some 4242) 0; FileUnlink (PID_FILE Demo.X)]).
Proof.
  split.
  - apply (startServer_existing_record Demo.X None Demo.running (lit "4242")).
    reflexivity.
  - apply (startServer_existing_record Demo.X None Demo.stale (lit "4242")).
    reflexivity.
Defined.

(** Without a record file [startServer] goes straight to the fresh
    start. *)
Lemma startServer_no_record (X : externals) (macrosFile : option jsstring)
    (w : world) :
  fs w !! PID_FILE X = None ->
  startServer X macrosFile w =
    freshStart X macrosFile
      (World (fs w) (procs w) (trace w ++ [FileExists (PID_FILE X)])).
Proof.
  intros Hnone. unfold startServer. run.
  rewrite bool_decide_eq_false_2; [reflexivity|].
  rewrite Hnone. intros [? ?]; discriminate.
Qed.

(** A fresh start with a readable macros file that parses: the parsed
    value is what is merged over the built-in macros for [init]. *)
Lemma freshStart_with_macros (X : externals) (file text : jsstring)
    (parsed : json) (w : world) :
  file <> [] ->
  fs w !! file = Some (Text text) ->
  JSON_parse X text = inr parsed ->
  freshStart X (Some file) w =
    (Returned tt,
     World (fs w) (procs w)
       (trace w ++ [FileExists file; FileRead file;
                    MathJaxInit (mathjaxConfig (Some parsed))])).
Proof.
  intros Hname Hfile Hparse. unfold freshStart, loadCustomMacros.
  destruct file as [|c file]; [congruence|].
  cbn [fmap option_fmap option_map truthy JS.eqb negb]. run.
  rewrite bool_decide_eq_true_2 by (rewrite Hfile; eauto).
  cbn [negb]. run.
  unfold readResult. rewrite Hfile. run. rewrite Hparse. run.
  now rewrite <- !app_assoc.
Qed.

(** A user definition of [bm] replaces the built-in one and [tag] stays. *)
Example user_bm_overrides :
  let user := JObj [(lit "bm", JStr (lit "\mathbf{#1}"))] in
  tex_macros (mathjaxConfig (Some user)) !! lit "bm" =
    Some (JStr (lit "\mathbf{#1}")) /\
  tex_macros (mathjaxConfig (Some user)) !! lit "tag" =
    Some (JArr [JStr (lit "\qquad (\mathrm{#1})"); JNum (num 1)]).
Proof. split; vm_compute; reflexivity. Qed.

(** * Further properties of the server script *)

(** ** Decimal process ids *)

Lemma digit_cases (c : code_unit) :
  isDigit c ->
  (c = 48 \/ c = 49 \/ c = 50 \/ c = 51 \/ c = 52 \/ c = 53 \/ c = 54 \/
   c = 55 \/ c = 56 \/ c = 57)%N.
Proof. unfold isDigit. lia. Qed.

Lemma pretty_N_char_code (d : N) :
  (d < 10)%N -> N_of_ascii (pretty_N_char d) = (48 + d)%N.
Proof.
  intros Hd.
  assert (d = 0 \/ d = 1 \/ d = 2 \/ d = 3 \/ d = 4 \/ d = 5 \/ d = 6 \/
          d = 7 \/ d = 8 \/ d = 9)%N as Hcases by lia.
  destruct_or!; subst d; reflexivity.
Qed.

Lemma digitValue_digit (d : N) :
  (d < 10)%N -> digitValue (48 + d)%N = Some (Z.of_N d).
Proof.
  intros Hd.
  assert (d = 0 \/ d = 1 \/ d = 2 \/ d = 3 \/ d = 4 \/ d = 5 \/ d = 6 \/
          d = 7 \/ d = 8 \/ d = 9)%N as Hcases by lia.
  destruct_or!; subst d; reflexivity.
Qed.

Lemma readsAs_nil : readsAs [] 0.
Proof. split; [constructor|split; [reflexivity|intros acc; reflexivity]]. Qed.

Lemma readsAs_cons (d : N) (s : jsstring) (n : Z) :
  (d < 10)%N ->
  readsAs s n ->
  readsAs ((48 + d)%N :: s) (Z.of_N d * 10 ^ Z.of_nat (length s) + n).
Proof.
  intros Hd (Hdigits & Hnil & Hparse). split; [|split].
  - constructor; [unfold isDigit; lia|exact Hdigits].
  - discriminate.
  - intros acc. cbn [parseDigits]. rewrite (digitValue_digit d Hd).
    destruct (Z.ltb_spec (Z.of_N d) 10) as [_|?]; [|lia].
    rewrite Hparse. destruct s as [|c s].
    + rewrite (Hnil eq_refl). cbn [length from_option id]. f_equal.
      change (10 ^ Z.of_nat 1) with 10. change (10 ^ Z.of_nat 0) with 1. ring.
    + change (length ((48 + d)%N :: c :: s)) with (S (length (c :: s))).
      generalize (length (c :: s)) as len. intros len.
      cbn [from_option id]. f_equal.
      rewrite Nat2Z.inj_succ, Z.pow_succ_r by lia. ring.
Qed.

Lemma readsAs_pretty_go (x : N) (s : string) (n : Z) :
  readsAs (lit s) n ->
  readsAs (lit (pretty_N_go x s))
          (Z.of_N x * 10 ^ Z.of_nat (length (lit s)) + n).
Proof.
  revert s n. induction (N.lt_wf_0 x) as [x _ IH]. intros s n Hs.
  destruct (N.eq_dec x 0%N) as [->|Hpos].
  - rewrite pretty_N_go_0. now replace (Z.of_N 0 * _ + n) with n by lia.
  - rewrite pretty_N_go_step by lia.
    assert (Hd : (x `mod` 10 < 10)%N) by (apply N.mod_lt; lia).
    pose proof (readsAs_cons _ _ _ Hd Hs) as Hstep.
    rewrite <- (pretty_N_char_code _ Hd) in Hstep.
    assert (Hlt : (x `div` 10 < x)%N) by (apply N.div_lt; lia).
    apply (IH _ Hlt (String (pretty_N_char (x `mod` 10)) s)) in Hstep.
    cbn [lit length] in Hstep.
    rewrite (Nat2Z.inj_succ (length (lit s))) in Hstep.
    rewrite Z.pow_succ_r in Hstep by lia.
    replace (Z.of_N x * 10 ^ Z.of_nat (length (lit s)) + n)
      with (Z.of_N (x `div` 10) * (10 * 10 ^ Z.of_nat (length (lit s))) +
            (Z.of_N (x `mod` 10) * 10 ^ Z.of_nat (length (lit s)) + n));
      [exact Hstep|].
    rewrite (N.div_mod x 10) at 3 by lia. lia.
Qed.

(** On a run of digits [parseInt] is [parseDigits] in radix 10. *)
Lemma parseInt_digits (s : jsstring) :
  Forall isDigit s -> s <> [] ->
  parseInt s = (fun n => 1 * n) <$> parseDigits 10 None s.
Proof.
  intros Hdigits Hne. destruct s as [|c s]; [congruence|].
  apply Forall_cons in Hdigits as [Hc Hs].
  apply digit_cases in Hc. destruct_or!; subst c; try reflexivity.
  destruct s as [|c s]; [reflexivity|].
  apply Forall_cons in Hs as [Hc _].
  apply digit_cases in Hc. destruct_or!; subst c; reflexivity.
Qed.

(** Reading back the decimal form of a process id gives the id. *)
Lemma parseInt_pretty (pid : Z) :
  0 <= pid -> parseInt (lit (pretty pid)) = Some pid.
Proof.
  intros Hpid. destruct pid as [|p|p]; [reflexivity| |lia].
  change (pretty (Z.pos p)) with (pretty_N_go (N.pos p) "").
  destruct (readsAs_pretty_go (N.pos p) "" 0 readsAs_nil)
    as (Hdigits & Hnil & Hparse).
  cbn [lit length] in Hnil, Hparse.
  assert (Hne : lit (pretty_N_go (N.pos p) "") <> []).
  { intros Hempty. specialize (Hnil Hempty). lia. }
  rewrite (parseInt_digits _ Hdigits Hne), Hparse.
  destruct (lit (pretty_N_go (N.pos p) "")); [congruence|].
  cbn [fmap option_fmap option_map default from_option id]. f_equal. lia.
Qed.

(** ** The record file through start, stop and shutdown *)

(** Without a record file [stopServer] has nothing to stop. *)
Lemma stopServer_absent (X : externals) (w : world) :
  fs w !! PID_FILE X = None ->
  stopServer X w =
    (Returned tt,
     World (fs w) (procs w)
       (trace w ++ [FileExists (PID_FILE X);
                    ConsoleLog (lit "Server is not running")])).
Proof.
  intros Hnone. unfold stopServer. run.
  rewrite bool_decide_eq_false_2 by (rewrite Hnone; intros [? ?]; discriminate).
  cbn [negb]. run. now rewrite <- !app_assoc.
Qed.

(** X1: with no record file [stopServer] only looks for it, says that the
    server is not running and returns; no file is read, written or
    deleted and no signal is sent. *)
Theorem stopServer_no_record (X : externals) (w : world) :
  fs w !! PID_FILE X = None ->
  (stopServer X w).1 = Returned tt /\
  fs (stopServer X w).2 = fs w /\
  events_since w (stopServer X w).2 =
    [FileExists (PID_FILE X); ConsoleLog (lit "Server is not running")].
Proof.
  intros Hnone. rewrite (stopServer_absent X w Hnone).
  unfold events_since. cbn [fst snd fs trace].
  now rewrite drop_app_length.
Qed.

Lemma stopServer_no_record_witness :
  (stopServer Demo.X Demo.idle).1 = Returned tt /\
  fs (stopServer Demo.X Demo.idle).2 = fs Demo.idle /\
  events_since Demo.idle (stopServer Demo.X Demo.idle).2 =
    [FileExists (PID_FILE Demo.X); ConsoleLog (lit "Server is not running")].
Proof. apply (stopServer_no_record Demo.X Demo.idle). reflexivity. Defined.

(** X2: with a record file that holds no number or a positive process id
    below 2^31, [stopServer] signals the recorded process.  If the process
    takes the signal the record file stays (the server removes it when it
    shuts down); if the id is not a number or names no process, the stale
    record is deleted.  It returns normally in both cases. *)
Theorem stopServer_existing_record (X : externals) (w : world)
    (text : jsstring) :
  fs w !! PID_FILE X = Some (Text text) ->
  plausibleRecord (parseInt text) ->
  let pid := parseInt text in
  let signalled :=
    World (fs w) (procs w)
          (trace w ++ [FileExists (PID_FILE X); FileRead (PID_FILE X);
                       Kill pid SIGINT]) in
  stopServer X w =
    if answersProbe w pid then
      (Returned tt,
       logged (lit "Sent stop signal to server (PID " ++ showNumber pid ++
               lit ")") signalled)
    else
      (Returned tt,
       World (delete (PID_FILE X) (fs w)) (procs w)
         (trace signalled ++
          [ConsoleLog (lit "Server not running (PID " ++ showNumber pid ++
                       lit ")");
           FileUnlink (PID_FILE X)])).
Proof.
  intros Hrecord _ pid signalled.
  unfold stopServer, answersProbe. subst signalled. run.
  rewrite bool_decide_eq_true_2 by eauto. cbn [negb]. run.
  unfold readResult. rewrite Hrecord. run.
  fold pid.
  destruct pid as [p|].
  - destruct (bool_decide (p ∈ procs w)); run.
    + now rewrite <- !app_assoc.
    + rewrite Hrecord. now rewrite <- !app_assoc.
  - run. rewrite Hrecord. now rewrite <- !app_assoc.
Qed.

Lemma stopServer_existing_record_witness :
  stopServer Demo.X Demo.running =
    (Returned tt,
     logged (lit "Sent stop signal to server (PID 4242)")
       (World (fs Demo.running) (procs Demo.running)
          [FileExists (PID_FILE Demo.X); FileRead (PID_FILE Demo.X);
           Kill (Some 4242) SIGINT])) /\
  stopServer Demo.X Demo.stale =
    (Returned tt,
     World (delete (PID_FILE Demo.X) (fs Demo.stale)) ∅
       [FileExists (PID_FILE Demo.X); FileRead (PID_FILE Demo.X);
        Kill (Some 4242) SIGINT;
        ConsoleLog (lit "Server not running (PID 4242)");
        FileUnlink (PID_FILE Demo.X)]).
Proof.
  split.
  - apply (stopServer_existing_record Demo.X Demo.running (lit "4242")).
    + reflexivity.
    + vm_compute. split; reflexivity.
  - apply (stopServer_existing_record Demo.X Demo.stale (lit "4242")).
    + reflexivity.
    + vm_compute. split; reflexivity.
Defined.

(** The listen callback writes the decimal process id into the record
    file, unless the file refuses access. *)
Lemma onListening_run (X : externals) (pid : Z) (w : world) :
  fs w !! PID_FILE X <> Some Locked ->
  onListening X pid w =
    (Returned tt,
     World (<[PID_FILE X := Text (lit (pretty pid))]> (fs w)) (procs w)
       (trace w ++ [ConsoleLog (lit "Server running on port 3000");
                    FileWrite (PID_FILE X)])).
Proof.
  intros Hfree. unfold onListening, writeTextFileSync. run.
  rewrite <- !app_assoc.
  destruct (fs w !! PID_FILE X) as [[| |]|]; try reflexivity.
  now destruct Hfree.
Qed.

(** A record that names a live process: [startServer] stops there. *)
Lemma startServer_live_record (X : externals) (macrosFile : option jsstring)
    (w : world) (text : jsstring) (pid : Z) :
  fs w !! PID_FILE X = Some (Text text) ->
  parseInt text = Some pid ->
  pid ∈ procs w ->
  startServer X macrosFile w =
    (Returned tt,
     World (fs w) (procs w)
       (trace w ++ [FileExists (PID_FILE X); FileRead (PID_FILE X);
                    Kill (Some pid) 0;
                    ConsoleLog (lit "Server already running with PID " ++
                                lit (pretty pid))])).
Proof.
  intros Hrecord Hpid Hlive. unfold startServer. run.
  rewrite bool_decide_eq_true_2 by eauto. run.
  unfold readResult. rewrite Hrecord. run. rewrite Hpid.
  rewrite bool_decide_eq_true_2 by exact Hlive. run.
  cbn [showNumber]. now rewrite <- !app_assoc.
Qed.

(** X3: once the listen callback of process [pid] has written the record,
    a second [startServer] (while that process lives) reads the same id
    back, reports that the server is already running and returns: it does
    not initialize MathJax and changes no file. *)
Theorem second_start_detects_first (X : externals)
    (macrosFile : option jsstring) (pid : Z) (w : world) :
  0 <= pid ->
  pid ∈ procs w ->
  fs w !! PID_FILE X <> Some Locked ->
  let w1 := (onListening X pid w).2 in
  startServer X macrosFile w1 =
    (Returned tt,
     World (fs w1) (procs w1)
       (trace w1 ++ [FileExists (PID_FILE X); FileRead (PID_FILE X);
                     Kill (Some pid) 0;
                     ConsoleLog (lit "Server already running with PID " ++
                                 lit (pretty pid))])).
Proof.
  intros Hpid Hlive Hfree w1. subst w1.
  rewrite (onListening_run X pid w Hfree). cbn [snd].
  apply (startServer_live_record X macrosFile _ (lit (pretty pid)) pid).
  - cbn [fs]. apply lookup_insert_eq.
  - now apply parseInt_pretty.
  - exact Hlive.
Qed.

Lemma second_start_detects_first_witness :
  let w1 := (onListening Demo.X 4242 Scenes.serving).2 in
  startServer Demo.X None w1 =
    (Returned tt,
     World (fs w1) (procs w1)
       (trace w1 ++ [FileExists (PID_FILE Demo.X); FileRead (PID_FILE Demo.X);
                     Kill (Some 4242) 0;
                     ConsoleLog (lit "Server already running with PID " ++
                                 lit (pretty 4242))])).
Proof.
  apply (second_start_detects_first Demo.X None 4242 Scenes.serving).
  - lia.
  - reflexivity.
  - discriminate.
Defined.

(** X4: after the listen callback of a live process [pid], [stopServer]
    sends SIGINT to exactly that process and leaves the record file in
    place. *)
Theorem stop_signals_recorded_process (X : externals) (pid : Z) (w : world) :
  0 <= pid ->
  pid ∈ procs w ->
  fs w !! PID_FILE X <> Some Locked ->
  let w1 := (onListening X pid w).2 in
  (stopServer X w1).1 = Returned tt /\
  fs (stopServer X w1).2 = fs w1 /\
  events_since w1 (stopServer X w1).2 =
    [FileExists (PID_FILE X); FileRead (PID_FILE X); Kill (Some pid) SIGINT;
     ConsoleLog (lit "Sent stop signal to server (PID " ++ lit (pretty pid) ++
                 lit ")")].
Proof.
  intros Hpid Hlive Hfree w1. subst w1.
  rewrite (onListening_run X pid w Hfree). cbn [snd].
  unfold stopServer, events_since. run.
  rewrite bool_decide_eq_true_2 by (rewrite lookup_insert_eq; eauto).
  cbn [negb]. run.
  unfold readResult. rewrite lookup_insert_eq. run.
  rewrite (parseInt_pretty pid Hpid).
  rewrite bool_decide_eq_true_2 by exact Hlive. run.
  cbn [fst snd fs trace showNumber]. repeat split.
  rewrite <- !app_assoc.
  rewrite (app_assoc (trace w)). now rewrite drop_app_length.
Qed.

Lemma stop_signals_recorded_process_witness :
  let w1 := (onListening Demo.X 4242 Scenes.serving).2 in
  (stopServer Demo.X w1).1 = Returned tt /\
  fs (stopServer Demo.X w1).2 = fs w1 /\
  events_since w1 (stopServer Demo.X w1).2 =
    [FileExists (PID_FILE Demo.X); FileRead (PID_FILE Demo.X);
     Kill (Some 4242) SIGINT;
     ConsoleLog (lit "Sent stop signal to server (PID " ++ lit (pretty 4242) ++
                 lit ")")].
Proof.
  apply (stop_signals_recorded_process Demo.X 4242 Scenes.serving).
  - lia.
  - reflexivity.
  - discriminate.
Defined.

(** The close callback of the SIGINT handler, run. *)
Lemma onServerClosed_run (X : externals) (w : world) :
  exists evs,
    onServerClosed X w =
      (Exited 0,
       World (delete (PID_FILE X) (fs w)) (procs w) (trace w ++ evs)) /\
    (evs = [FileExists (PID_FILE X); FileUnlink (PID_FILE X);
            ConsoleLog (lit "Server stopped")] \/
     evs = [FileExists (PID_FILE X); ConsoleLog (lit "Server stopped")]).
Proof.
  unfold onServerClosed. run.
  destruct (fs w !! PID_FILE X) as [f|] eqn:Hrecord.
  - rewrite bool_decide_eq_true_2 by eauto. run. rewrite Hrecord. run.
    eexists. split; [|left; reflexivity]. now rewrite <- !app_assoc.
  - rewrite bool_decide_eq_false_2 by (intros [? ?]; discriminate). run.
    rewrite (delete_id _ _ Hrecord).
    eexists. split; [|right; reflexivity]. now rewrite <- !app_assoc.
Qed.

(** X5: the shutdown callback always ends the process with status 0 and
    never throws, whether or not the record file is still there; of the
    files it removes the record and nothing else. *)
Theorem shutdown_removes_record (X : externals) (w : world) :
  (onServerClosed X w).1 = Exited 0 /\
  fs (onServerClosed X w).2 = delete (PID_FILE X) (fs w) /\
  fs (onServerClosed X w).2 !! PID_FILE X = None.
Proof.
  destruct (onServerClosed_run X w) as (evs & -> & _).
  cbn [fst snd fs]. repeat split. apply lookup_delete_eq.
Qed.

(** X6: after a clean shutdown, [stopServer] finds no record and reports
    that the server is not running; it sends no signal and deletes
    nothing. *)
Theorem stop_after_shutdown (X : externals) (w : world) :
  let w1 := (onServerClosed X w).2 in
  (stopServer X w1).1 = Returned tt /\
  fs (stopServer X w1).2 = fs w1 /\
  events_since w1 (stopServer X w1).2 =
    [FileExists (PID_FILE X); ConsoleLog (lit "Server is not running")].
Proof.
  destruct (onServerClosed_run X w) as (evs & Hrun & _).
  rewrite Hrun. cbn [snd].
  rewrite stopServer_absent by (cbn [fs]; apply lookup_delete_eq).
  unfold events_since. cbn [fst snd fs trace].
  now rewrite drop_app_length.
Qed.

(** ** Loading the macros file *)

(** X7: started with the name of a macros file that does not exist (and
    no record file in the way), [startServer] reports the file as not
    found and ends the process with status 1; MathJax is not initialized
    and no file is changed. *)
Theorem start_with_missing_macros_file (X : externals) (file : jsstring)
    (w : world) :
  file <> [] ->
  fs w !! PID_FILE X = None ->
  fs w !! file = None ->
  startServer X (Some file) w =
    (Exited 1,
     World (fs w) (procs w)
       (trace w ++ [FileExists (PID_FILE X); FileExists file;
                    ConsoleError (lit "Macros file not found: " ++ file)])).
Proof.
  intros Hname Hrecord Hfile.
  rewrite (startServer_no_record X (Some file) w Hrecord).
  unfold freshStart, loadCustomMacros.
  destruct file as [|c file]; [congruence|].
  cbn [fmap option_fmap option_map truthy JS.eqb negb]. run.
  rewrite bool_decide_eq_false_2 by (rewrite Hfile; intros [? ?]; discriminate).
  cbn [negb]. run. now rewrite <- !app_assoc.
Qed.

Lemma start_with_missing_macros_file_witness :
  startServer Demo.X (Some (lit "macros.json")) Demo.idle =
    (Exited 1,
     World (fs Demo.idle) (procs Demo.idle)
       (trace Demo.idle ++
        [FileExists (PID_FILE Demo.X); FileExists (lit "macros.json");
         ConsoleError (lit "Macros file not found: " ++ lit "macros.json")])).
Proof.
  apply (start_with_missing_macros_file Demo.X (lit "macros.json") Demo.idle).
  - discriminate.
  - reflexivity.
  - reflexivity.
Defined.

(** X8: when the macros file exists but cannot be read or is not valid
    JSON, the exception is caught, its message is reported as "Error
    loading macros file: ..." and the process ends with status 1 without
    initializing MathJax. *)
Theorem start_with_bad_macros_file (X : externals) (file : jsstring)
    (w : world) (e : exn) :
  file <> [] ->
  fs w !! PID_FILE X = None ->
  is_Some (fs w !! file) ->
  macrosFromFile X w file = inl e ->
  startServer X (Some file) w =
    (Exited 1,
     World (fs w) (procs w)
       (trace w ++ [FileExists (PID_FILE X); FileExists file; FileRead file;
                    ConsoleError (lit "Error loading macros file: " ++
                                  message e)])).
Proof.
  intros Hname Hrecord Hfile Hbad.
  rewrite (startServer_no_record X (Some file) w Hrecord).
  unfold freshStart, loadCustomMacros, macrosFromFile in *.
  destruct file as [|c file]; [congruence|].
  cbn [fmap option_fmap option_map truthy JS.eqb negb]. run.
  rewrite bool_decide_eq_true_2 by exact Hfile.
  cbn [negb]. run.
  destruct (readResult X (fs w) (c :: file)) as [e'|text]; run.
  - injection Hbad as ->. now rewrite <- !app_assoc.
  - rewrite Hbad. run. now rewrite <- !app_assoc.
Qed.

Lemma start_with_bad_macros_file_witness :
  startServer Demo.X (Some (lit "macros.json")) Scenes.lockedMacros =
    (Exited 1,
     World (fs Scenes.lockedMacros) (procs Scenes.lockedMacros)
       (trace Scenes.lockedMacros ++
        [FileExists (PID_FILE Demo.X); FileExists (lit "macros.json");
         FileRead (lit "macros.json");
         ConsoleError (lit "Error loading macros file: " ++
                       message (eacces (lit "open") (lit "macros.json")))])).
Proof.
  apply (start_with_bad_macros_file Demo.X (lit "macros.json")
           Scenes.lockedMacros (eacces (lit "open") (lit "macros.json"))).
  - discriminate.
  - reflexivity.
  - exists Locked. reflexivity.
  - reflexivity.
Defined.

(** X9: whatever the macros argument and the files, the fresh start never
    throws and changes no file.  Either it returns, and then its last
    action is the one call of the MathJax initializer, or it ends the
    process with status 1, and then the initializer was never called. *)
Theorem freshStart_initializes_or_exits (X : externals)
    (macrosFile : option jsstring) (w : world) :
  exists evs,
    (freshStart X macrosFile w).2 = World (fs w) (procs w) (trace w ++ evs) /\
    match (freshStart X macrosFile w).1 with
    | Returned _ =>
        exists before cfg,
          evs = before ++ [MathJaxInit cfg] /\
          forall c, MathJaxInit c ∉ before
    | Exited code => code = 1 /\ forall c, MathJaxInit c ∉ evs
    | Threw _ => False
    end.
Proof.
  unfold freshStart, loadCustomMacros.
  destruct macrosFile as [[|c file]|];
    cbn [fmap option_fmap option_map truthy JS.eqb negb]; run.
  1, 3: exists [MathJaxInit (mathjaxConfig None)]; split; [reflexivity|];
        exists [], (mathjaxConfig None); split; [reflexivity|];
        intros cfg Hin; now apply elem_of_nil in Hin.
  match goal with
  | |- context [bool_decide ?P] => destruct (bool_decide P)
  end; cbn [negb]; run.
  - destruct (readResult X (fs w) (c :: file)) as [e|text]; run.
    + eexists. rewrite <- ?app_assoc. split; [reflexivity|].
      split; [reflexivity|]. intros cfg. cbn [app]. pick_event.
    + destruct (JSON_parse X text) as [e|parsed]; run.
      * eexists. rewrite <- ?app_assoc. split; [reflexivity|].
        split; [reflexivity|]. intros cfg. cbn [app]. pick_event.
      * eexists. rewrite <- ?app_assoc. split; [reflexivity|].
        exists [FileExists (c :: file); FileRead (c :: file)],
          (mathjaxConfig (Some parsed)).
        split; [reflexivity|]. intros cfg. pick_event.
  - eexists. rewrite <- ?app_assoc. split; [reflexivity|].
    split; [reflexivity|]. intros cfg. cbn [app]. pick_event.
Qed.

(** X10: a record file that exists but cannot be read makes both
    [startServer] and [stopServer] throw the read error, since they read
    it outside of their [try] blocks: the record is not deleted, no
    process is signalled and MathJax is not initialized. *)
Theorem unreadable_record_throws (X : externals)
    (macrosFile : option jsstring) (w : world) :
  fs w !! PID_FILE X = Some Locked ->
  let after :=
    World (fs w) (procs w)
      (trace w ++ [FileExists (PID_FILE X); FileRead (PID_FILE X)]) in
  startServer X macrosFile w = (Threw (eacces (lit "open") (PID_FILE X)), after) /\
  stopServer X w = (Threw (eacces (lit "open") (PID_FILE X)), after).
Proof.
  intros Hlocked after. subst after.
  unfold startServer, stopServer. run.
  rewrite bool_decide_eq_true_2 by eauto. cbn [negb]. run.
  unfold readResult. rewrite Hlocked. run.
  rewrite <- !app_assoc. split; reflexivity.
Qed.

Lemma unreadable_record_throws_witness :
  let after :=
    World (fs Scenes.lockedRecord) (procs Scenes.lockedRecord)
      (trace Scenes.lockedRecord ++
       [FileExists (PID_FILE Demo.X); FileRead (PID_FILE Demo.X)]) in
  startServer Demo.X None Scenes.lockedRecord =
    (Threw (eacces (lit "open") (PID_FILE Demo.X)), after) /\
  stopServer Demo.X Scenes.lockedRecord =
    (Threw (eacces (lit "open") (PID_FILE Demo.X)), after).
Proof.
  apply (unreadable_record_throws Demo.X None Scenes.lockedRecord).
  reflexivity.
Defined.

(** ** Command handling *)

(** X11: called with no command, or with one that is neither [start] nor
    [stop], the server script prints its usage line and ends the process
    with status 1; it touches no file and starts nothing. *)
Theorem server_main_unknown_command (X : externals) (args : list jsstring)
    (w : world) :
  strictEq (args !! 0%nat) (lit "start") = false ->
  strictEq (args !! 0%nat) (lit "stop") = false ->
  server_main X args w =
    (Exited 1,
     logged (lit "Usage: tex2png-server.js [start|stop]") w).
Proof.
  intros Hstart Hstop. unfold server_main. cbv zeta.
  rewrite Hstart, Hstop. reflexivity.
Qed.

Lemma server_main_unknown_command_witness :
  server_main Demo.X [] Demo.running =
    (Exited 1,
     logged (lit "Usage: tex2png-server.js [start|stop]") Demo.running) /\
  server_main Demo.X [lit "restart"] Demo.running =
    (Exited 1,
     logged (lit "Usage: tex2png-server.js [start|stop]") Demo.running).
Proof.
  split.
  - apply (server_main_unknown_command Demo.X [] Demo.running); reflexivity.
  - apply (server_main_unknown_command Demo.X [lit "restart"] Demo.running);
      reflexivity.
Defined.

(** ** More on the content normalizer *)

Lemma trimStart_keeps (c : code_unit) (s : jsstring) :
  isWhiteSpace c = false -> trimStart (c :: s) = c :: s.
Proof. intros Hc. cbn [trimStart]. now rewrite Hc. Qed.

Lemma trimStart_head (s : jsstring) :
  trimStart s = [] \/
  exists c t, trimStart s = c :: t /\ isWhiteSpace c = false.
Proof.
  induction s as [|c s IH]; [left; reflexivity|].
  cbn [trimStart]. destruct (isWhiteSpace c) eqn:Hc; [exact IH|].
  right. exists c, s. split; [reflexivity|exact Hc].
Qed.

Lemma trimStart_snoc (s : jsstring) (c : code_unit) :
  isWhiteSpace c = false -> exists t, trimStart (s ++ [c]) = t ++ [c].
Proof.
  intros Hc. induction s as [|d s IH].
  - exists []. now apply trimStart_keeps.
  - cbn [app trimStart]. destruct (isWhiteSpace d); [exact IH|].
    exists (d :: s). reflexivity.
Qed.

Lemma trimStart_idempotent (s : jsstring) :
  trimStart (trimStart s) = trimStart s.
Proof.
  destruct (trimStart_head s) as [->|(c & t & -> & Hc)]; [reflexivity|].
  now apply trimStart_keeps.
Qed.

(** Trimming a trimmed string changes nothing. *)
Lemma trim_idempotent (s : jsstring) : trim (trim s) = trim s.
Proof.
  unfold trim.
  assert (Hstart : trimStart (trimEnd (trimStart s)) = trimEnd (trimStart s)).
  { destruct (trimStart_head s) as [->|(c & t & -> & Hc)]; [reflexivity|].
    unfold trimEnd. cbn [rev].
    destruct (trimStart_snoc (rev t) c Hc) as [l ->].
    rewrite rev_unit. now apply trimStart_keeps. }
  rewrite Hstart. unfold trimEnd.
  now rewrite rev_involutive, trimStart_idempotent.
Qed.

Lemma startsWith_backslash_not_dollar (s : jsstring) (c : code_unit) :
  startsWith s [92%N; c] = true ->
  startsWith s (lit "$") = false /\ startsWith s (lit "$$") = false.
Proof.
  destruct s as [|d s]; [discriminate|].
  change (lit "$") with [36%N]. change (lit "$$") with [36%N; 36%N].
  cbn [startsWith]. intros H. apply andb_true_iff in H as [Hd _].
  apply N.eqb_eq in Hd. subst d. split; reflexivity.
Qed.

(** X12: a string that starts with [\[] and ends with [\]] is display
    math; its content is the input without the two-character prefix and
    suffix, trimmed, and nothing is logged. *)
Theorem normalizer_display_brackets (s : jsstring) (w : world) :
  startsWith s (lit "\[") = true ->
  endsWith s (lit "\]") = true ->
  processMathContent s w =
    (Returned (Normalized (trim (spec_stripped 2 s)) true), w).
Proof.
  intros Hs He. rewrite processMathContent_spec.
  unfold spec_normalize, isDisplayMath. rewrite Hs, He.
  now rewrite orb_true_r.
Qed.

Lemma normalizer_display_brackets_witness :
  processMathContent (lit "\[ a+b \]") (World ∅ ∅ []) =
    (Returned (Normalized (trim (spec_stripped 2 (lit "\[ a+b \]"))) true),
     World ∅ ∅ []).
Proof.
  apply (normalizer_display_brackets (lit "\[ a+b \]") (World ∅ ∅ []));
    reflexivity.
Defined.

(** X13: a string that starts with [\(] and ends with [\)] is inline
    math; its content is the input without the two-character prefix and
    suffix, trimmed, and nothing is logged. *)
Theorem normalizer_inline_parens (s : jsstring) (w : world) :
  startsWith s (lit "\(") = true ->
  endsWith s (lit "\)") = true ->
  processMathContent s w =
    (Returned (Normalized (trim (spec_stripped 2 s)) false), w).
Proof.
  intros Hs He. rewrite processMathContent_spec.
  destruct (startsWith_backslash_not_dollar s 40%N Hs) as [H1 H2].
  assert (Hbracket : startsWith s (lit "\[") = false).
  { destruct s as [|a [|b s]]; try discriminate.
    revert Hs. change (lit "\(") with [92%N; 40%N].
    change (lit "\[") with [92%N; 91%N]. cbn [startsWith].
    rewrite !andb_true_r. intros H. apply andb_true_iff in H as [-> Hb].
    apply N.eqb_eq in Hb. subst b. reflexivity. }
  unfold spec_normalize, isDisplayMath, isInlineMath.
  rewrite H1, H2, Hbracket, Hs, He. reflexivity.
Qed.

Lemma normalizer_inline_parens_witness :
  processMathContent (lit "\( a+b \)") (World ∅ ∅ []) =
    (Returned (Normalized (trim (spec_stripped 2 (lit "\( a+b \)"))) false),
     World ∅ ∅ []).
Proof.
  apply (normalizer_inline_parens (lit "\( a+b \)") (World ∅ ∅ []));
    reflexivity.
Defined.

(** The normalized content of a trimmed string is trimmed. *)
Lemma spec_normalize_trimmed (s : jsstring) :
  trim s = s -> trim (content (spec_normalize s)) = content (spec_normalize s).
Proof.
  intros Hs. unfold spec_normalize.
  destruct (isDisplayMath s); [apply trim_idempotent|].
  destruct (isInlineMath s); [apply trim_idempotent|exact Hs].
Qed.

(** X14: when a delimiter pair is recognized, or when the input was
    already trimmed, the content the normalizer returns has no white space
    at either end: trimming it again changes nothing. *)
Theorem normalizer_content_is_trimmed (s : jsstring) (w : world)
    (r : NormalizedContent) :
  (processMathContent s w).1 = Returned r ->
  isDisplayMath s || isInlineMath s = true \/ trim s = s ->
  trim (content r) = content r.
Proof.
  rewrite processMathContent_spec. cbn [fst]. intros [= <-] Hcase.
  unfold spec_normalize.
  destruct (isDisplayMath s); [apply trim_idempotent|].
  destruct (isInlineMath s); [apply trim_idempotent|].
  destruct Hcase as [Hcase|Hcase]; [discriminate|exact Hcase].
Qed.

Lemma normalizer_content_is_trimmed_witness :
  trim (content (Normalized (lit "a+b") true)) =
    content (Normalized (lit "a+b") true).
Proof.
  apply (normalizer_content_is_trimmed (lit "$$  a+b  $$") (World ∅ ∅ [])).
  - reflexivity.
  - left. reflexivity.
Defined.

(** ** More on the render handler *)

(** X15: an [inputFile] that is present but falsy (the empty string,
    [null], [false], zero) is refused like a missing one: status 400 with
    "inputFile is required", and the world is left as it was. *)
Theorem render_falsy_inputFile (X : externals) (MathJax : mathjax)
    (o : json) (w : world) :
  o <> JNull ->
  truthy (getProp o (lit "inputFile")) = false ->
  post_render X MathJax (Some o) w =
    (Returned (errorResponse 400 (lit "inputFile is required")), w).
Proof.
  intros Hobj Hfalsy. unfold post_render, render_body.
  destruct o; try congruence; run; rewrite ?Hfalsy; reflexivity.
Qed.

Lemma render_falsy_inputFile_witness :
  post_render Demo.X Demo.MathJax
      (Some (JObj [(lit "inputFile", JStr [])])) Demo.idle =
    (Returned (errorResponse 400 (lit "inputFile is required")), Demo.idle).
Proof.
  apply (render_falsy_inputFile Demo.X Demo.MathJax
           (JObj [(lit "inputFile", JStr [])]) Demo.idle).
  - discriminate.
  - reflexivity.
Defined.




(** The world after a request that goes through. *)
Lemma render_success_world (X : externals) (MathJax : mathjax) (o : json)
    (w : world) (p q text svg : jsstring) (png : list N) :
  getProp o (lit "inputFile") = Some (JStr p) ->
  p <> [] ->
  readResult X (fs w) p = inr text ->
  let math := spec_normalize (trim text) in
  let opts :=
    resvgOptions X
      (default (JNum defaultFontSize) (getProp o (lit "fontSize")))
      (display math) in
  spec_typeset MathJax math
    (default (JStr defaultColor) (getProp o (lit "color"))) = inr svg ->
  spec_rasterize X svg opts = Done png ->
  default (JStr (lit "output.png")) (getProp o (lit "outFile")) = JStr q ->
  unwritable X q = None ->
  fs w !! q <> Some Locked ->
  post_render X MathJax (Some o) w =
    (Returned (Response 200 (JObj [(lit "success", JBool true);
                                   (lit "file", JStr q)])),
     World (<[q := Binary png]> (fs w)) (procs w)
       (trace w ++ [FileRead p] ++
        (if isDisplayMath (trim text) || isInlineMath (trim text) then []
         else [ConsoleLog noDelimiterNotice]) ++
        [Typeset (content math) (display math); Rasterize svg opts;
         FileWrite q])).
Proof.
  intros Hin Hp Hread math opts Htypeset Hraster Hout Hopen Hfree.
  subst opts.
  assert (Hobj : destructure (Some o) = ret o).
  { destruct o; try reflexivity. discriminate Hin. }
  assert (Ht : truthy (Some (JStr p)) = true).
  { destruct p; [congruence|reflexivity]. }
  revert Htypeset Hraster.
  unfold post_render, try_catch, bind. rewrite Hobj. unfold ret at 1.
  unfold render_body, spec_typeset, spec_rasterize. cbv zeta.
  rewrite Hout, Hin, Ht. cbn [negb].
  generalize (default (JStr defaultColor) (getProp o (lit "color"))) as color.
  generalize (default (JNum defaultFontSize) (getProp o (lit "fontSize")))
    as fontSize.
  intros fontSize color Htypeset Hraster.
  run. rewrite Hread. run.
  rewrite processMathContent_spec. fold math.
  assert (Hwrite :
    writeResult X (fs w) q png = inr (<[q := Binary png]> (fs w))).
  { unfold writeResult. rewrite Hopen.
    destruct (fs w !! q) as [[| |]|]; try reflexivity.
    now destruct Hfree. }
  destruct (isDisplayMath (trim text) || isInlineMath (trim text)); run.
  all: destruct (tex2svg MathJax (content math) (display math)) as [?|n1];
    [discriminate|]; run.
  all: destruct (firstChild MathJax n1) as [?|n2]; [discriminate|]; run.
  all: destruct (setAttribute MathJax n2 (lit "color") color) as [?|n3];
    [discriminate|]; run.
  all: rewrite Htypeset; run.
  all: destruct (Resvg_new X svg _) as [r1| |]; try discriminate; run.
  all: destruct (Resvg_render X r1) as [r2| |]; try discriminate; run.
  all: rewrite Hraster; run.
  all: rewrite Hwrite; run; now rewrite <- !app_assoc.
Qed.

(** X17: a request whose input file (named by a path) can be read, whose
    content the typesetter and the rasterizer accept and whose output path
    can be opened for writing, the file there not refusing access, is
    answered with status 200 and the output path.  On the way the handler
    reads the input once, calls the typesetter and then the rasterizer once
    each, and writes the output once, in this order; the file at the
    output path then holds the bytes the rasterizer returned. *)
Theorem render_success_run (X : externals) (MathJax : mathjax) (o : json)
    (w : world) (p q text svg : jsstring) (png : list N) :
  getProp o (lit "inputFile") = Some (JStr p) ->
  p <> [] ->
  readResult X (fs w) p = inr text ->
  let math := spec_normalize (trim text) in
  let opts :=
    resvgOptions X
      (default (JNum defaultFontSize) (getProp o (lit "fontSize")))
      (display math) in
  spec_typeset MathJax math
    (default (JStr defaultColor) (getProp o (lit "color"))) = inr svg ->
  spec_rasterize X svg opts = Done png ->
  default (JStr (lit "output.png")) (getProp o (lit "outFile")) = JStr q ->
  unwritable X q = None ->
  fs w !! q <> Some Locked ->
  (post_render X MathJax (Some o) w).1 =
    Returned (Response 200 (JObj [(lit "success", JBool true);
                                  (lit "file", JStr q)])) /\
  fs (post_render X MathJax (Some o) w).2 !! q = Some (Binary png) /\
  events_since w (post_render X MathJax (Some o) w).2 =
    [FileRead p] ++
    (if isDisplayMath (trim text) || isInlineMath (trim text) then []
     else [ConsoleLog noDelimiterNotice]) ++
    [Typeset (content math) (display math); Rasterize svg opts; FileWrite q].
Proof.
  intros Hin Hp Hread math opts Htypeset Hraster Hout Hopen Hfree.
  rewrite (render_success_world X MathJax o w p q text svg png
             Hin Hp Hread Htypeset Hraster Hout Hopen Hfree).
  unfold events_since. cbn [fst snd fs trace].
  split; [reflexivity|]. split; [apply lookup_insert_eq|].
  apply drop_app_length.
Qed.

Lemma render_success_run_witness :
  let math := spec_normalize (trim (lit "$$E=mc^2$$")) in
  let opts :=
    resvgOptions Demo.X
      (default (JNum defaultFontSize) (getProp Demo.request (lit "fontSize")))
      (display math) in
  (post_render Demo.X Demo.MathJax (Some Demo.request) Demo.idle).1 =
    Returned (Response 200 (JObj [(lit "success", JBool true);
                                  (lit "file", JStr (lit "output.png"))])) /\
  fs (post_render Demo.X Demo.MathJax (Some Demo.request) Demo.idle).2
    !! lit "output.png" = Some (Binary (lit "<svg>E=mc^2</svg>")) /\
  events_since Demo.idle
    (post_render Demo.X Demo.MathJax (Some Demo.request) Demo.idle).2 =
    [FileRead Demo.formula] ++
    (if isDisplayMath (trim (lit "$$E=mc^2$$")) ||
        isInlineMath (trim (lit "$$E=mc^2$$")) then []
     else [ConsoleLog noDelimiterNotice]) ++
    [Typeset (content math) (display math);
     Rasterize (lit "<svg>E=mc^2</svg>") opts;
     FileWrite (lit "output.png")].
Proof.
  apply (render_success_run Demo.X Demo.MathJax Demo.request Demo.idle
           Demo.formula (lit "output.png") (lit "$$E=mc^2$$")
           (lit "<svg>E=mc^2</svg>") (lit "<svg>E=mc^2</svg>")).
  - reflexivity.
  - discriminate.
  - reflexivity.
  - reflexivity.
  - reflexivity.
  - reflexivity.
  - reflexivity.
  - discriminate.
Defined.

(** The typesetter is only ever called with the normalized content of
    what was read, trimmed, and its display flag. *)
Lemma render_body_typeset (X : externals) (MathJax : mathjax) (o : json)
    (w : world) :
  exists evs,
    trace (render_body X MathJax o w).2 = trace w ++ evs /\
    forall tex d,
      Typeset tex d ∈ evs ->
      exists inputFile text,
        getProp o (lit "inputFile") = Some inputFile /\
        (readFileSync X inputFile w).1 = Returned text /\
        Normalized tex d = spec_normalize (trim text).
Proof.
  render_cases X MathJax o w.
  all: cbn [snd trace]; rewrite ?HtW; rewrite <- ?app_assoc.
  all: first [ eexists; split; [reflexivity|]
             | exists []; split; [now rewrite app_nil_r|] ].
  all: intros tex d Hin; trace_cases Hin.
  all: match goal with H : Typeset _ _ = Typeset _ _ |- _ =>
         injection H as -> -> end.
  all: exists inputFile, text; rewrite Hread; repeat split; try assumption.
  all: subst math; now destruct (spec_normalize (trim text)).
Qed.

(** X18: whenever the handler calls the typesetter, the TeX it passes is
    the normalized content of what it read from the input file (a path or
    an open descriptor), with the display flag of the normalizer, and it
    has no white space at either end. *)
Theorem typesetter_input_is_trimmed (X : externals) (MathJax : mathjax)
    (req_body : option json) (w : world) (tex : jsstring) (d : bool) :
  Typeset tex d ∈ events_since w (post_render X MathJax req_body w).2 ->
  exists o inputFile text,
    req_body = Some o /\
    getProp o (lit "inputFile") = Some inputFile /\
    (readFileSync X inputFile w).1 = Returned text /\
    (processMathContent (trim text) w).1 = Returned (Normalized tex d) /\
    trim tex = tex.
Proof.
  unfold events_since, post_render. intros Hin.
  destruct req_body as [o|];
    [|revert Hin; run; rewrite drop_app_length; pick_event].
  destruct (render_body_typeset X MathJax o w) as (evs & Htrace & Htex).
  assert (Hevs : Typeset tex d ∈ evs).
  { revert Hin. destruct o; run;
      try (rewrite drop_app_length; pick_event).
    all: destruct (render_body X MathJax _ w) as [[r|e|c] w'];
      cbn [snd] in Htrace; run; rewrite Htrace, <- ?app_assoc, drop_app_length;
      pick_event. }
  destruct (Htex tex d Hevs) as (inputFile & text & Hfile & Hread & Hnorm).
  exists o, inputFile, text.
  rewrite processMathContent_spec. cbn [fst]. rewrite <- Hnorm.
  repeat split; try assumption.
  change tex with (content (Normalized tex d)). rewrite Hnorm.
  apply spec_normalize_trimmed, trim_idempotent.
Qed.

Lemma typesetter_input_is_trimmed_witness :
  exists o inputFile text,
    Some Demo.request = Some o /\
    getProp o (lit "inputFile") = Some inputFile /\
    (readFileSync Demo.X inputFile Demo.idle).1 = Returned text /\
    (processMathContent (trim text) Demo.idle).1 =
      Returned (Normalized (lit "E=mc^2") true) /\
    trim (lit "E=mc^2") = lit "E=mc^2".
Proof.
  apply (typesetter_input_is_trimmed Demo.X Demo.MathJax (Some Demo.request)
           Demo.idle (lit "E=mc^2") true).
  vm_compute. repeat constructor.
Defined.

(** * Properties of the command-line client *)

(** X19: optional arguments given as empty strings count as left out.
    With only the input file, or with empty strings after it, the request
    carries the output path "output.png", the colour "#8ec07c" and the
    font size 25. *)
Theorem client_empty_arguments_default (path_resolve : jsstring -> jsstring)
    (input : jsstring) (rest : list jsstring) :
  (length rest <= 3)%nat ->
  Forall (fun s => s = []) rest ->
  requestData (parseRenderArgs path_resolve (input :: rest)) =
    JObj [(lit "inputFile", JStr (path_resolve input));
          (lit "outFile", JStr (lit "output.png"));
          (lit "color", JStr (lit "#8ec07c"));
          (lit "fontSize", JNum (num 25))].
Proof.
  intros Hlen Hempty.
  destruct rest as [|a [|b [|c [|? ?]]]]; cbn [length] in Hlen; try lia.
  all: repeat match goal with
       | H : Forall _ (_ :: _) |- _ => apply Forall_cons in H as [-> H]
       end; reflexivity.
Qed.

Lemma client_empty_arguments_default_witness :
  requestData (parseRenderArgs (fun s => lit "/work/" ++ s)
                 [lit "f.tex"; []; []]) =
    JObj [(lit "inputFile", JStr (lit "/work/" ++ lit "f.tex"));
          (lit "outFile", JStr (lit "output.png"));
          (lit "color", JStr (lit "#8ec07c"));
          (lit "fontSize", JNum (num 25))].
Proof.
  apply (client_empty_arguments_default (fun s => lit "/work/" ++ s)
           (lit "f.tex") [[]; []]).
  - simpl. lia.
  - repeat constructor.
Defined.

(** X20: a render command whose input file does not exist ends the client
    with status 1 after reporting the resolved path; the client changes no
    file and prepares no request. *)
Theorem client_missing_input (path_resolve : jsstring -> jsstring)
    (input : jsstring) (rest : list jsstring) (w : world) :
  JS.eqb input (lit "help") = false ->
  JS.eqb input (lit "stop") = false ->
  fs w !! path_resolve input = None ->
  client_main path_resolve (input :: rest) w =
    (Exited 1,
     World (fs w) (procs w)
       (trace w ++ [FileExists (path_resolve input);
                    ConsoleError (lit "Input file not found: " ++
                                  path_resolve input)])).
Proof.
  intros Hhelp Hstop Hmissing. unfold client_main.
  cbn [length Nat.eqb orb lookup list_lookup strictEq].
  rewrite Hhelp, Hstop. cbv zeta.
  unfold parseRenderArgs. cbn [length Nat.leb lookup list_lookup fmap
    option_fmap option_map arg_inputFile]. run.
  rewrite bool_decide_eq_false_2
    by (rewrite Hmissing; intros [? ?]; discriminate).
  cbn [negb]. run. now rewrite <- !app_assoc.
Qed.

Lemma client_missing_input_witness :
  client_main (fun s => lit "/work/" ++ s) [lit "f.tex"] Demo.idle =
    (Exited 1,
     World (fs Demo.idle) (procs Demo.idle)
       (trace Demo.idle ++
        [FileExists (lit "/work/" ++ lit "f.tex");
         ConsoleError (lit "Input file not found: " ++
                       (lit "/work/" ++ lit "f.tex"))])).
Proof.
  apply (client_missing_input (fun s => lit "/work/" ++ s) (lit "f.tex") []
           Demo.idle); reflexivity.
Defined.

(** X21: when the client goes on to a render request, the arguments are
    the parsed ones, and the request names an input file that existed
    when the client looked. *)
Theorem client_request_names_existing_file
    (path_resolve : jsstring -> jsstring) (args : list jsstring)
    (w w' : world) (a : renderArgs) :
  client_main path_resolve args w = (Returned (Render a), w') ->
  a = parseRenderArgs path_resolve args /\
  exists p,
    getProp (requestData a) (lit "inputFile") = Some (JStr p) /\
    is_Some (fs w !! p) /\
    fs w' = fs w.
Proof.
  unfold client_main.
  destruct ((length args =? 0)%nat || strictEq (args !! 0%nat) (lit "help"));
    [run; discriminate|].
  destruct (strictEq (args !! 0%nat) (lit "stop")); [run; discriminate|].
  cbv zeta. unfold requestData.
  destruct (arg_inputFile (parseRenderArgs path_resolve args)) as [p|] eqn:Hp;
    run; [|discriminate].
  destruct (bool_decide (is_Some (fs w !! p))) eqn:Hexists;
    cbn [negb]; run; [|discriminate].
  intros [= <- <-]. split; [reflexivity|]. exists p. rewrite Hp.
  split; [reflexivity|]. split; [|reflexivity].
  now apply bool_decide_eq_true_1 in Hexists.
Qed.

Lemma client_request_names_existing_file_witness :
  parseRenderArgs (fun s => s) [Demo.formula] =
    parseRenderArgs (fun s => s) [Demo.formula] /\
  exists p,
    getProp (requestData (parseRenderArgs (fun s => s) [Demo.formula]))
      (lit "inputFile") = Some (JStr p) /\
    is_Some (fs Demo.idle !! p) /\
    fs (World (fs Demo.idle) (procs Demo.idle)
          (trace Demo.idle ++ [FileExists Demo.formula])) = fs Demo.idle.
Proof.
  apply (client_request_names_existing_file (fun s => s) [Demo.formula]
           Demo.idle).
  reflexivity.
Defined.

(** * The client and the server together *)





(** * A whole run of the server *)


